(** * kubernetes-master reactive layer: a shallow embedding

    Source: cluster/juju/layers/kubernetes-master/reactive/kubernetes_master.py

    The handlers of the layer ([install], [start_master], [launch_dns]) and
    their helpers are embedded as computations in a state-and-exception
    monad.  Python [str] values are held as their UTF-8 bytes in [string];
    every separator the code splits on is ASCII, so splitting and joining
    bytes coincides with splitting and joining code points.

    The collaborators are kept to their contract.
    - [call(split(c))] records the command line [c] and yields the exit
      status the surroundings give for [c].  No handler runs the same
      command line twice, so one status per command line describes any
      invocation.  The process is taken to be spawned: a command line that
      [shlex] cannot split or an executable that is missing is not modelled.
    - [check_call] and [check_output] raise [CalledProcessError] on a
      non-zero status.
    - [status_set], [log], [print], [set_state], [remove_state], [makedirs],
      [render] and [save_client_credentials] take effect and return.
    Every effect is recorded, in order, in the trace of the state, next to
    the set of charm states (flags) and the set of existing paths. *)

From stdpp Require Import gmap strings list fin_maps.
From Stdlib Require Import ZArith Ascii String.

#[local] Set Warnings "-clear-no-such-hyp".

Local Open Scope string_scope.
Local Open Scope list_scope.

(** ** Python string primitives used by the layer *)

Module Py.

(** [s.split(sep)] for a one-character separator: every occurrence of
    [sep] ends a field; the result is never empty. *)
Fixpoint str_split (sep : ascii) (s : string) : list string :=
  match s with
  | EmptyString => [EmptyString]
  | String c rest =>
      if Ascii.eqb c sep then EmptyString :: str_split sep rest
      else match str_split sep rest with
           | [] => [String c EmptyString]
           | field :: fields => String c field :: fields
           end
  end.

(** [sep.join(l)] *)
Fixpoint str_join (sep : string) (l : list string) : string :=
  match l with
  | [] => EmptyString
  | [x] => x
  | x :: rest => x +:+ sep +:+ str_join sep rest
  end.

(** [l[0]] where the list is known to be non-empty ([str_split] results) *)
Definition first (l : list string) : string := hd EmptyString l.

(** [l[0:-1]]: all but the last element, the empty list staying empty *)
Definition but_last (l : list string) : list string := removelast l.

(** [bytes.rstrip()]: trailing ASCII whitespace removed *)
Definition is_space (c : ascii) : bool :=
  let n := N_of_ascii c in
  ((n =? 32) || ((9 <=? n) && (n <=? 13)))%N.

Fixpoint rstrip (s : string) : string :=
  match s with
  | EmptyString => EmptyString
  | String c rest =>
      match rstrip rest with
      | EmptyString => if is_space c then EmptyString else String c EmptyString
      | kept => String c kept
      end
  end.

(** Well-formedness of a byte string as UTF-8, as the strict decoder of
    [bytes.decode('utf-8')] checks it: shortest forms only, no surrogates,
    nothing above U+10FFFF. *)
Definition continuation (c : ascii) : bool :=
  let n := N_of_ascii c in ((128 <=? n) && (n <=? 191))%N.

Definition between (lo hi : N) (c : ascii) : bool :=
  let n := N_of_ascii c in ((lo <=? n) && (n <=? hi))%N.

Definition second_of_three (lead : N) (c : ascii) : bool :=
  if (lead =? 224)%N then between 160 191 c
  else if (lead =? 237)%N then between 128 159 c
  else continuation c.

Definition second_of_four (lead : N) (c : ascii) : bool :=
  if (lead =? 240)%N then between 144 191 c
  else if (lead =? 244)%N then between 128 143 c
  else continuation c.

Fixpoint utf8_valid (s : string) : bool :=
  match s with
  | EmptyString => true
  | String c0 r0 =>
      let lead := N_of_ascii c0 in
      if (lead <? 128)%N then utf8_valid r0
      else if ((194 <=? lead) && (lead <=? 223))%N then
        match r0 with
        | String c1 r1 => continuation c1 && utf8_valid r1
        | _ => false
        end
      else if ((224 <=? lead) && (lead <=? 239))%N then
        match r0 with
        | String c1 (String c2 r2) =>
            second_of_three lead c1 && continuation c2 && utf8_valid r2
        | _ => false
        end
      else if ((240 <=? lead) && (lead <=? 244))%N then
        match r0 with
        | String c1 (String c2 (String c3 r3)) =>
            second_of_four lead c1 && continuation c2 && continuation c3
            && utf8_valid r3
        | _ => false
        end
      else false
  end.

(** [os.path.join(a, b)] of posixpath, two arguments *)
Definition starts_with_sep (p : string) : bool :=
  match p with
  | String c _ => Ascii.eqb c "/"
  | EmptyString => false
  end.

Fixpoint ends_with_sep (p : string) : bool :=
  match p with
  | EmptyString => false
  | String c EmptyString => Ascii.eqb c "/"
  | String _ rest => ends_with_sep rest
  end.

Definition path_join (a b : string) : string :=
  if starts_with_sep b then b
  else if String.eqb a EmptyString || ends_with_sep a then a +:+ b
  else a +:+ "/" +:+ b.

End Py.

(** ** Address derivation (lines 169-182) *)

Definition get_dns_ip (cidr : string) : string :=
  let ip := Py.first (Py.str_split "/" cidr) in
  Py.str_join "." (Py.but_last (Py.str_split "." ip)) +:+ ".10".

Definition get_sdn_ip (cidr : string) : string :=
  let ip := Py.first (Py.str_split "/" cidr) in
  Py.str_join "." (Py.but_last (Py.str_split "." ip)) +:+ ".1".

(** ** Values, exceptions and the handler monad *)

(** What a dictionary of the charm can hold: configuration options, key-value
    facts and the render context, the latter with one nested dictionary. *)
#[warnings="-register-all"]
Inductive value :=
  | VNone
  | VBool (b : bool)
  | VInt (z : Z)
  | VStr (s : string)
  | VDict (d : gmap string value).

(** [bool(v)] *)
Definition truthy (v : value) : bool :=
  match v with
  | VNone => false
  | VBool b => b
  | VInt z => negb (z =? 0)%Z
  | VStr s => negb (String.eqb s EmptyString)
  | VDict d => match map_to_list d with [] => false | _ => true end
  end.

(** [d.get(k)] *)
Definition dict_get (d : gmap string value) (k : string) : value :=
  default VNone (d !! k).

(** [d.update(e)]: the keys of [e] win. *)
Definition dict_update (d e : gmap string value) : gmap string value := e ∪ d.

Inductive exn :=
  | Exception (message : string)
  | IndexError
  | ValueError
  | AttributeError
  | UnicodeDecodeError
  | CalledProcessError (returncode : Z) (cmd : string).

Inductive result (A : Type) :=
  | Ok (a : A)
  | Raise (e : exn).
Arguments Ok {A} a.
Arguments Raise {A} e.

(** Effects, in the order the handlers perform them. *)
Inductive event :=
  | StatusSet (level message : string)
  | Log (message : string)
  | Print (line : string)
  | Run (cmd : string)
  | SetState (flag : string)
  | RemoveState (flag : string)
  | SaveClientCredentials (key cert ca : string)
  | MakeDirs (path : string)
  | Render (source target : string) (context : gmap string value).

Record state := State {
  flags : gset string;   (* charms.reactive states that are set *)
  paths : gset string;   (* paths for which os.path.exists holds *)
  trace : list event
}.

(** The unit's surroundings during one handler invocation. *)
Record env := Env {
  charm_dir : string;                 (* hookenv.charm_dir() *)
  config : gmap string value;         (* hookenv.config() *)
  kv : gmap string value;             (* unitdata.kv() *)
  unit_get : string -> value;         (* hookenv.unit_get *)
  exit_status : string -> Z;          (* exit status of a command line *)
  stdout : string -> string           (* what a command prints *)
}.

(** The etcd relation object handed to [start_master]. *)
Record etcd_relation := EtcdRelation {
  rel_truthy : bool;                  (* bool(reldata) *)
  get_connection_string : string
}.

Definition M (A : Type) : Type := state -> result A * state.

Definition ret {A} (a : A) : M A := fun s => (Ok a, s).

Definition bind {A B} (m : M A) (k : A -> M B) : M B :=
  fun s => match m s with
           | (Ok a, s') => k a s'
           | (Raise e, s') => (Raise e, s')
           end.

Definition raise {A} (e : exn) : M A := fun s => (Raise e, s).

Definition lift {A} (r : result A) : M A := fun s => (r, s).

Declare Scope py_scope.
Delimit Scope py_scope with py.
Notation "x <- m ;; k" := (bind m (fun x => k))
  (at level 100, m at next level, right associativity) : py_scope.
Notation "m ;;; k" := (bind m (fun _ => k))
  (at level 100, right associativity) : py_scope.
Local Open Scope py_scope.

Definition emit (e : event) : M unit :=
  fun s => (Ok tt, State (flags s) (paths s) (trace s ++ [e])).

(** [for x in l: body(x)] *)
Fixpoint for_each {A} (l : list A) (body : A -> M unit) : M unit :=
  match l with
  | [] => ret tt
  | x :: rest => body x ;;; for_each rest body
  end.

(** [fmt.format(args...)] for the format strings of the layer: literal text
    and explicit positional fields [{N}], read from left to right (doubled
    braces and automatic numbering do not occur in the layer).  [field] is
    the index read so far inside a field, [None] outside one.  A field whose
    index is not an argument raises [IndexError] once the field is
    reached. *)
Definition digit (c : ascii) : option nat :=
  let n := N_of_ascii c in
  if ((48 <=? n) && (n <=? 57))%N then Some (N.to_nat (n - 48)) else None.

(** Strings of decimal digits, and occurrence of a character. *)
Fixpoint all_digits (s : string) : bool :=
  match s with
  | EmptyString => true
  | String c rest => bool_decide (is_Some (digit c)) && all_digits rest
  end.

Fixpoint occurs (c : ascii) (s : string) : bool :=
  match s with
  | EmptyString => false
  | String c' rest => Ascii.eqb c' c || occurs c rest
  end.

Fixpoint str_format_from (fmt : string) (field : option nat)
    (args : list string) : result string :=
  match fmt, field with
  | EmptyString, None => Ok EmptyString
  | EmptyString, Some _ => Raise ValueError
  | String c rest, None =>
      if Ascii.eqb c "{" then str_format_from rest (Some 0) args
      else if Ascii.eqb c "}" then Raise ValueError
      else match str_format_from rest None args with
           | Ok tail => Ok (String c tail)
           | Raise e => Raise e
           end
  | String c rest, Some n =>
      if Ascii.eqb c "}" then
        match args !! n with
        | None => Raise IndexError
        | Some a =>
            match str_format_from rest None args with
            | Ok tail => Ok (a +:+ tail)
            | Raise e => Raise e
            end
        end
      else match digit c with
           | Some d => str_format_from rest (Some (10 * n + d)) args
           | None => Raise ValueError
           end
  end.

Definition str_format (fmt : string) (args : list string) : result string :=
  str_format_from fmt None args.

Definition format (fmt : string) (args : list string) : M string :=
  lift (str_format fmt args).

(** ** The layer *)

Section Layer.

Variable e : env.

(** *** Collaborators *)

(** [subprocess.call(split(cmd))] *)
Definition call (cmd : string) : M Z :=
  emit (Run cmd) ;;; ret (exit_status e cmd).

(** [subprocess.check_call(split(cmd))] *)
Definition check_call (cmd : string) : M unit :=
  return_code <- call cmd ;;
  if (return_code =? 0)%Z then ret tt
  else raise (CalledProcessError return_code cmd).

(** [subprocess.check_output(argv)], [cmd] being the argv joined by spaces *)
Definition check_output (cmd : string) : M string :=
  return_code <- call cmd ;;
  if (return_code =? 0)%Z then ret (stdout e cmd)
  else raise (CalledProcessError return_code cmd).

Definition status_set (level message : string) : M unit :=
  emit (StatusSet level message).

Definition log (message : string) : M unit := emit (Log message).

Definition print (line : string) : M unit := emit (Print line).

Definition set_state (flag : string) : M unit :=
  fun s => (Ok tt, State ({[flag]} ∪ flags s) (paths s)
                         (trace s ++ [SetState flag])).

Definition remove_state (flag : string) : M unit :=
  fun s => (Ok tt, State (flags s ∖ {[flag]}) (paths s)
                         (trace s ++ [RemoveState flag])).

Definition path_exists (p : string) : M bool :=
  fun s => (Ok (bool_decide (p ∈ paths s)), s).

Definition makedirs (p : string) : M unit :=
  fun s => (Ok tt, State (flags s) ({[p]} ∪ paths s)
                         (trace s ++ [MakeDirs p])).

Definition save_client_credentials (key cert ca : string) : M unit :=
  emit (SaveClientCredentials key cert ca).

Definition render (source target : string) (context : gmap string value)
    : M unit :=
  emit (Render source target context).

(** [bytes.decode('utf-8')] *)
Definition decode (b : string) : M string :=
  if Py.utf8_valid b then ret b else raise UnicodeDecodeError.

(** *** install (lines 18-34) *)

Definition services_to_install : list string :=
  ["kube-apiserver"; "kube-controller-manager"; "kube-scheduler"; "kube-dns"].

(** Lines 31-34: one round of the loop over the binaries. *)
Definition install_binary (files_dir dest_dir service : string) : M unit :=
  install <- format "install {0}/{1} {3}" [files_dir; service; dest_dir] ;;
  return_code <- call install ;;
  if negb (return_code =? 0)%Z then
    message <- format "Unable to install {0}" [service] ;;
    raise (Exception message)
  else ret tt.

Definition install : M unit :=
  let files_dir := Py.path_join (charm_dir e) "files" in
  let archive := Py.path_join files_dir "kubernetes.tar.gz" in
  command <- format "tar -xvzf {0} -C {1}" [archive; files_dir] ;;
  return_code <- call command ;;
  let dest_dir := "/usr/local/bin/" in
  for_each services_to_install (install_binary files_dir dest_dir).

(** *** Helpers (lines 80-92 and 144-203) *)

Definition supported_architectures : list string :=
  ["amd64"; "arm"; "arm64"; "ppc64le"].

Definition arch : M string :=
  output <- check_output "dpkg --print-architecture" ;;
  architecture <- decode (Py.rstrip output) ;;
  if negb (bool_decide (architecture ∈ supported_architectures)) then
    message <- format "Unsupported machine architecture: {0}" [architecture] ;;
    status_set "blocked" message ;;;
    raise (Exception message)
  else ret architecture.

(** [get_dns_ip(v)] on a value: only a [str] has [split]. *)
Definition get_dns_ip_of (v : value) : M string :=
  match v with
  | VStr cidr => ret (get_dns_ip cidr)
  | _ => raise AttributeError
  end.

Definition gather_sdn_data : M (gmap string value) :=
  let sdn_data : gmap string value := ∅ in
  let pillar : gmap string value := ∅ in
  let subnet := dict_get (kv e) "sdn_subnet" in
  dns_server <- (if truthy subnet then get_dns_ip_of subnet
                 else get_dns_ip_of (dict_get (config e) "cidr")) ;;
  let pillar := <["dns_server" := VStr dns_server]> pillar in
  let pillar := <["dns_replicas" := VInt 1]> pillar in
  let pillar := <["dns_domain" := dict_get (config e) "dns_domain"]> pillar in
  ret (<["pillar" := VDict pillar]> sdn_data).

Definition start_service (service_name : string) : M bool :=
  start <- format "systemctl start {0}" [service_name] ;;
  print start ;;;
  return_code <- call start ;;
  ret (return_code =? 0)%Z.

Definition render_service (service_name : string)
    (context : gmap string value) : M unit :=
  let unit_directory := "/etc/systemd/system" in
  source <- format "{0}.service" [service_name] ;;
  let target := Py.path_join unit_directory service_name in
  render source target context ;;;
  conf_directory <- format "/etc/defaults/{0}" [service_name] ;;
  source <- format "{0}.defaults" [service_name] ;;
  let target := Py.path_join conf_directory service_name in
  render source target context.

(** *** render_files (lines 95-141) *)

(** Lines 98-134: the context handed to the four [render_service] calls,
    with the two working directories ensured on the way. *)
Definition render_context (reldata : option etcd_relation)
    : M (gmap string value) :=
  let context : gmap string value := ∅ in
  sdn_data <- gather_sdn_data ;;
  let context := dict_update context sdn_data in
  let context := dict_update context (config e) in
  context <-
    match reldata with
    | Some rel =>
        if rel_truthy rel then
          let connection_string := get_connection_string rel in
          let etcd_dir := "/etc/ssl/etcd" in
          let ca := Py.path_join etcd_dir "client-ca.pem" in
          let key := Py.path_join etcd_dir "client-key.pem" in
          let cert := Py.path_join etcd_dir "client-cert.pem" in
          save_client_credentials key cert ca ;;;
          ret (dict_update context
                 {[ "etcd_dir" := VStr etcd_dir;
                    "connection_string" := VStr connection_string;
                    "etcd_ca" := VStr ca;
                    "etcd_key" := VStr key;
                    "etcd_cert" := VStr cert ]})
        else ret context
    | None => ret context
    end ;;
  let rendered_kube_dir := Py.path_join (charm_dir e) "files/kubernetes" in
  present <- path_exists rendered_kube_dir ;;
  (if negb present then makedirs rendered_kube_dir else ret tt) ;;;
  let rendered_manifest_dir := Py.path_join (charm_dir e) "files/manifests" in
  present <- path_exists rendered_manifest_dir ;;
  (if negb present then makedirs rendered_manifest_dir else ret tt) ;;;
  architecture <- arch ;;
  ret (dict_update context
         {[ "arch" := VStr architecture;
            "master_address" := unit_get e "private-address";
            "manifest_directory" := VStr rendered_manifest_dir;
            "public_address" := unit_get e "public-address";
            "private_address" := unit_get e "private-address" ]}).

Definition render_files (reldata : option etcd_relation) : M unit :=
  context <- render_context reldata ;;
  render_service "kube-apiserver" context ;;;
  render_service "kube-controller-manager" context ;;;
  render_service "kube-scheduler" context ;;;
  render_service "kube-dns" context.

(** *** start_master (lines 37-52) *)

Definition services_to_start : list string :=
  ["kube-apiserver"; "kube-controller-manager"; "kube-scheduler"].

(** Lines 51-52: one round of the loop over the services. *)
Definition start_and_flag (service : string) : M unit :=
  started <- start_service service ;;
  if started then
    flag <- format "{0}.available" [service] ;;
    set_state flag
  else ret tt.

Definition start_master (etcd : etcd_relation) : M unit :=
  status_set "maintenance"
             "Rendering the Kubernetes master systemd files." ;;;
  render_files (Some etcd) ;;;
  status_set "maintenance"
             "Starting the Kubernetes master services." ;;;
  for_each services_to_start start_and_flag.

(** *** launch_dns (lines 55-77) *)

Definition launch_dns : M unit :=
  status_set "maintenance"
             "Rendering the Kubernetes DNS systemd files." ;;;
  return_code <- call "kubectl cluster-info" ;;
  if negb (return_code =? 0)%Z then
    log "kubectl command failed, waiting for apiserver to start." ;;;
    remove_state "kubedns.available" ;;;
    ret tt
  else
    return_code <- call "kubectl get namespace kube-system" ;;
    (if negb (return_code =? 0)%Z then
       check_call "kubectl create namespace kube-system"
     else ret tt) ;;;
    render_files None ;;;
    started <- start_service "kube-dns" ;;
    if started then set_state "kube-dns.available" else ret tt.

End Layer.

(** *** The decorators: when a handler is eligible to run *)

Definition install_eligible (fl : gset string) : bool :=
  bool_decide ("kube_master_components.installed" ∉ fl).

Definition start_master_eligible (fl : gset string) : bool :=
  bool_decide ("k8s.certificate.authority available" ∈ fl)
  && bool_decide ("etcd.available" ∈ fl).

Definition launch_dns_eligible (fl : gset string) : bool :=
  bool_decide ("apiserver.available" ∈ fl)
  && bool_decide ("kube-dns.available" ∉ fl).

(** ** Sample surroundings *)

Definition newline : string := String (ascii_of_nat 10) EmptyString.

Definition sample_config : gmap string value :=
  {[ "cidr" := VStr "10.1.2.0/24"; "dns_domain" := VStr "cluster.local" ]}.

Definition sample_addresses (k : string) : value :=
  VStr (if String.eqb k "public-address" then "54.1.2.3" else "172.31.0.5").

(** Exit status 1 for the listed command lines, 0 for all others. *)
Definition failing (failures : list string) (cmd : string) : Z :=
  if bool_decide (cmd ∈ failures) then 1%Z else 0%Z.

(** An amd64 unit on which the listed command lines fail. *)
Definition env_where (failures : list string) : env :=
  Env "/var/lib/juju/charm" sample_config ∅ sample_addresses
      (failing failures) (fun _ => "amd64" +:+ newline).

Definition sample_env : env := env_where [].

Definition scheduler_down_env : env :=
  env_where ["systemctl start kube-scheduler"].

Definition probe_down_env : env := env_where ["kubectl cluster-info"].

Definition namespace_missing_env : env :=
  env_where ["kubectl get namespace kube-system";
             "kubectl create namespace kube-system"].

Definition tar_fails_env : env :=
  env_where ["tar -xvzf /var/lib/juju/charm/files/kubernetes.tar.gz -C /var/lib/juju/charm/files"].

(** A unit of an architecture that is not supported. *)
Definition mips_env : env :=
  Env "/var/lib/juju/charm" sample_config ∅ sample_addresses
      (fun _ => 0%Z) (fun _ => "mips" +:+ newline).

(** A unit whose configuration has an option named [etcd_dir]; the subnet
    fact is set. *)
Definition etcd_configured_env : env :=
  Env "/var/lib/juju/charm"
      (<["etcd_dir" := VStr "/srv/etcd"]> sample_config)
      {[ "sdn_subnet" := VStr "10.9.0.0/16" ]}
      sample_addresses (fun _ => 0%Z) (fun _ => "amd64" +:+ newline).

Definition fresh : state := State ∅ ∅ [].

Definition sample_etcd : etcd_relation :=
  EtcdRelation true "https://10.0.0.4:2379".

(** ** Vocabulary of the statements *)

(** The command lines the handlers build. *)
Definition files_directory (e : env) : string :=
  Py.path_join (charm_dir e) "files".

Definition tar_command (e : env) : string :=
  "tar -xvzf " +:+ Py.path_join (files_directory e) "kubernetes.tar.gz"
  +:+ " -C " +:+ files_directory e.

Definition start_command (service : string) : string :=
  "systemctl start " +:+ service.

Definition available (service : string) : string := service +:+ ".available".

Definition dpkg_command : string := "dpkg --print-architecture".

(** What the packaging subsystem reports, trailing whitespace removed. *)
Definition detected (e : env) : string := Py.rstrip (stdout e dpkg_command).

Definition unsupported_message (architecture : string) : string :=
  "Unsupported machine architecture: " +:+ architecture.

(** The value the DNS address is derived from: the persisted subnet fact
    when it is truthy, the configured [cidr] option otherwise. *)
Definition dns_source (e : env) : value :=
  if truthy (dict_get (kv e) "sdn_subnet") then dict_get (kv e) "sdn_subnet"
  else dict_get (config e) "cidr".

(** The two working directories. *)
Definition kube_directory (e : env) : string :=
  Py.path_join (charm_dir e) "files/kubernetes".

Definition manifest_directory (e : env) : string :=
  Py.path_join (charm_dir e) "files/manifests".

(** The descriptor, when one is supplied and truthy. *)
Definition descriptor (reldata : option etcd_relation) : option etcd_relation :=
  match reldata with
  | Some rel => if rel_truthy rel then Some rel else None
  | None => None
  end.

Definition etcd_keys : list string :=
  ["connection_string"; "etcd_ca"; "etcd_key"; "etcd_cert"; "etcd_dir"].

Definition credential_events (reldata : option etcd_relation) : list event :=
  match descriptor reldata with
  | Some _ => [SaveClientCredentials "/etc/ssl/etcd/client-key.pem"
                                     "/etc/ssl/etcd/client-cert.pem"
                                     "/etc/ssl/etcd/client-ca.pem"]
  | None => []
  end.

(** A directory is created only when it is absent. *)
Definition ensure_events (p : string) (present : gset string) : list event :=
  if bool_decide (p ∈ present) then [] else [MakeDirs p].

(** The effects of [render_context] up to the architecture detection. *)
Definition prepared (e : env) (reldata : option etcd_relation) (s : state)
    : state :=
  State (flags s)
        ({[kube_directory e; manifest_directory e]} ∪ paths s)
        (trace s ++ credential_events reldata
                 ++ ensure_events (kube_directory e) (paths s)
                 ++ ensure_events (manifest_directory e) (paths s)).

(** The dictionaries that make up the render context. *)
Definition pillar_of (e : env) (cidr : string) : gmap string value :=
  {[ "dns_server" := VStr (get_dns_ip cidr);
     "dns_replicas" := VInt 1;
     "dns_domain" := dict_get (config e) "dns_domain" ]}.

Definition etcd_entries (rel : etcd_relation) : gmap string value :=
  {[ "etcd_dir" := VStr "/etc/ssl/etcd";
     "connection_string" := VStr (get_connection_string rel);
     "etcd_ca" := VStr "/etc/ssl/etcd/client-ca.pem";
     "etcd_key" := VStr "/etc/ssl/etcd/client-key.pem";
     "etcd_cert" := VStr "/etc/ssl/etcd/client-cert.pem" ]}.

Definition node_entries (e : env) (architecture : string)
    : gmap string value :=
  {[ "arch" := VStr architecture;
     "master_address" := unit_get e "private-address";
     "manifest_directory" := VStr (manifest_directory e);
     "public_address" := unit_get e "public-address";
     "private_address" := unit_get e "private-address" ]}.

(** Later entries win: node entries over etcd entries over the unit
    configuration over the network parameters. *)
Definition full_context (e : env) (reldata : option etcd_relation)
    (cidr architecture : string) : gmap string value :=
  let network : gmap string value := {[ "pillar" := VDict (pillar_of e cidr) ]} in
  let base := dict_update network (config e) in
  let with_etcd := match descriptor reldata with
                   | Some rel => dict_update base (etcd_entries rel)
                   | None => base
                   end in
  dict_update with_etcd (node_entries e architecture).

(** The two files rendered for a service. *)
Definition service_renders (context : gmap string value) (service : string)
    : list event :=
  [Render (service +:+ ".service") ("/etc/systemd/system/" +:+ service)
          context;
   Render (service +:+ ".defaults")
          ("/etc/defaults/" +:+ service +:+ "/" +:+ service) context].

Definition rendered_services : list string :=
  ["kube-apiserver"; "kube-controller-manager"; "kube-scheduler"; "kube-dns"].

Definition is_render (ev : event) : bool :=
  match ev with Render _ _ _ => true | _ => false end.

Definition is_save_credentials (ev : event) : bool :=
  match ev with SaveClientCredentials _ _ _ => true | _ => false end.

Definition probe_command : string := "kubectl cluster-info".

Definition namespace_check_command : string :=
  "kubectl get namespace kube-system".

Definition namespace_create_command : string :=
  "kubectl create namespace kube-system".

Definition dns_status : event :=
  StatusSet "maintenance" "Rendering the Kubernetes DNS systemd files.".

(** Lines 75-77: what [launch_dns] does once the namespace is there. *)
Definition dns_addon (e : env) : M unit :=
  render_files e None ;;;
  started <- start_service e "kube-dns" ;;
  if started then set_state "kube-dns.available" else ret tt.

(** What the packaging subsystem reports: the command succeeds and its
    output, trailing whitespace removed, decodes to [architecture]. *)
Definition reports (e : env) (architecture : string) : Prop :=
  exit_status e dpkg_command = 0%Z
  /\ Py.utf8_valid (detected e) = true
  /\ detected e = architecture.

(** Whether the service manager starts a service. *)
Definition started (e : env) (service : string) : bool :=
  (exit_status e (start_command service) =? 0)%Z.

Definition start_events (e : env) (service : string) : list event :=
  [Print (start_command service); Run (start_command service)]
  ++ (if started e service then [SetState (available service)] else []).

Definition start_flags (e : env) (services : list string) : gset string :=
  list_to_set (available <$> filter (fun sv => started e sv = true) services).

(** Relations between the state before and after a computation. *)
Definition same_flags (s s' : state) : Prop := flags s' = flags s.

Definition grows_by (P : event -> Prop) (s s' : state) : Prop :=
  exists t : list event, trace s' = (trace s ++ t)%list /\ Forall P t.

(** A computation respects [R] when [R] relates the state it starts in to
    the state it leaves, whether it returns or raises. *)
Definition respects (R : relation state) {A} (m : M A) : Prop :=
  forall s, R s (snd (m s)).

(** The effects a render can have. *)
Inductive render_effect : event -> Prop :=
  | effect_credentials key cert ca :
      render_effect (SaveClientCredentials key cert ca)
  | effect_makedirs p : render_effect (MakeDirs p)
  | effect_dpkg : render_effect (Run dpkg_command)
  | effect_status level message : render_effect (StatusSet level message)
  | effect_render source target context :
      render_effect (Render source target context).

(** The state once one more effect has been recorded. *)
Definition after (s : state) (t : list event) : state :=
  State (flags s) (paths s) (trace s ++ t).

(** ** Vocabulary of the further properties *)

(** Strings of ASCII whitespace. *)
Fixpoint all_space (w : string) : bool :=
  match w with
  | EmptyString => true
  | String c rest => Py.is_space c && all_space rest
  end.

(** The command lines run, in order. *)
Definition commands (t : list event) : list string :=
  flat_map (fun ev => match ev with Run cmd => [cmd] | _ => [] end) t.

(** Whether [arch] blocks the unit: the report is read, decodes, and names
    an architecture that is not supported. *)
Definition blocks (e : env) : bool :=
  (exit_status e dpkg_command =? 0)%Z
  && Py.utf8_valid (detected e)
  && negb (bool_decide (detected e ∈ supported_architectures)).

(** Whether [arch] returns. *)
Definition detects (e : env) : bool :=
  (exit_status e dpkg_command =? 0)%Z
  && Py.utf8_valid (detected e)
  && bool_decide (detected e ∈ supported_architectures).

(** An arm64 unit whose packaging command pads its answer. *)
Definition padded_env : env :=
  Env "/var/lib/juju/charm" sample_config ∅ sample_addresses
      (fun _ => 0%Z) (fun _ => "arm64" +:+ " " +:+ newline +:+ newline).

(** A unit with neither a subnet fact nor a [cidr] option. *)
Definition no_cidr_env : env :=
  Env "/var/lib/juju/charm" {[ "dns_domain" := VStr "cluster.local" ]} ∅
      sample_addresses (fun _ => 0%Z) (fun _ => "amd64" +:+ newline).

(** The paths are left as they are. *)
Definition same_paths (s s' : state) : Prop := paths s' = paths s.

(** The keys [render_files] sets last. *)
Definition node_keys : list string :=
  ["arch"; "master_address"; "manifest_directory"; "public_address";
   "private_address"].

(** A unit whose configuration has options named [arch] and [pillar]. *)
Definition shadowing_env : env :=
  Env "/var/lib/juju/charm"
      (<["arch" := VStr "s390x"]>
         (<["pillar" := VStr "salt"]> sample_config))
      ∅ sample_addresses (fun _ => 0%Z) (fun _ => "amd64" +:+ newline).

(** A unit on which no service can be started. *)
Definition all_down_env : env :=
  env_where ["systemctl start kube-apiserver";
             "systemctl start kube-controller-manager";
             "systemctl start kube-scheduler";
             "systemctl start kube-dns"].

(** No charm state is removed, and only states of [added] are set. *)
Definition adds_flags (added : gset string) (s s' : state) : Prop :=
  flags s ⊆ flags s' /\ flags s' ⊆ flags s ∪ added.

Definition master_flags : gset string :=
  {[ "kube-apiserver.available"; "kube-controller-manager.available";
     "kube-scheduler.available" ]}.

(** A unit whose cluster answers, lacks the namespace and accepts its
    creation, but whose DNS service does not start. *)
Definition dns_down_env : env :=
  env_where ["kubectl get namespace kube-system";
             "systemctl start kube-dns"].

(** * Properties *)

(** ** Strings *)

Section Strings.

Lemma app_cons c (x y : string) : String c x +:+ y = String c (x +:+ y).
Proof. reflexivity. Qed.

Lemma app_nil_r (x : string) : x +:+ "" = x.
Proof. induction x as [|c x IH]; [reflexivity|]. by rewrite app_cons, IH. Qed.

Lemma app_assoc (x y z : string) : (x +:+ y) +:+ z = x +:+ (y +:+ z).
Proof.
  induction x as [|c x IH]; [reflexivity|]. by rewrite !app_cons, IH.
Qed.

Lemma occurs_app c (x y : string) :
  occurs c (x +:+ y) = occurs c x || occurs c y.
Proof.
  induction x as [|c' x IH]; [reflexivity|].
  rewrite app_cons. simpl. rewrite IH. by rewrite orb_assoc.
Qed.

Lemma all_digits_occurs sep (x : string) :
  digit sep = None -> all_digits x = true -> occurs sep x = false.
Proof.
  intros Hsep. induction x as [|c x IH]; simpl; [done|].
  intros [Hc Hx]%andb_prop. rewrite (IH Hx), orb_false_r.
  destruct (Ascii.eqb_spec c sep) as [->|]; [|done].
  apply bool_decide_eq_true in Hc. rewrite Hsep in Hc. by destruct Hc.
Qed.

Lemma str_split_nonempty sep s : Py.str_split sep s <> [].
Proof.
  destruct s as [|c s]; simpl; [done|].
  destruct (Ascii.eqb c sep); [done|]. by destruct (Py.str_split sep s).
Qed.

(** A string without the separator is a single field. *)
Lemma str_split_free sep (x : string) :
  occurs sep x = false -> Py.str_split sep x = [x].
Proof.
  induction x as [|c x IH]; simpl; [done|].
  intros [Hc Hx]%orb_false_elim. by rewrite Hc, (IH Hx).
Qed.

(** The first separator ends the first field. *)
Lemma str_split_app sep (x y : string) :
  occurs sep x = false ->
  Py.str_split sep (x +:+ String sep y) = x :: Py.str_split sep y.
Proof.
  induction x as [|c x IH]; simpl.
  - intros _. by rewrite Ascii.eqb_refl.
  - intros [Hc Hx]%orb_false_elim. by rewrite Hc, (IH Hx).
Qed.

(** Both derivations share the address prefix. *)
Lemma derivation_prefix (a b c d n : string) :
  all_digits a = true -> all_digits b = true ->
  all_digits c = true -> all_digits d = true ->
  Py.str_join "."
    (Py.but_last
       (Py.str_split "."
          (Py.first
             (Py.str_split "/"
                (a +:+ "." +:+ b +:+ "." +:+ c +:+ "." +:+ d +:+ "/" +:+ n)))))
  = a +:+ "." +:+ b +:+ "." +:+ c.
Proof.
  intros Ha Hb Hc Hd.
  assert (Hdot : forall x, all_digits x = true -> occurs "." x = false)
    by (intros; by apply all_digits_occurs).
  assert (Hslash : forall x, all_digits x = true -> occurs "/" x = false)
    by (intros; by apply all_digits_occurs).
  replace (a +:+ "." +:+ b +:+ "." +:+ c +:+ "." +:+ d +:+ "/" +:+ n)
    with ((a +:+ "." +:+ b +:+ "." +:+ c +:+ "." +:+ d) +:+ String "/" n)
    by (by rewrite !app_assoc).
  rewrite str_split_app.
  2:{ rewrite !occurs_app, (Hslash a), (Hslash b), (Hslash c), (Hslash d)
        by done.
      reflexivity. }
  unfold Py.first. simpl hd.
  change (a +:+ "." +:+ b +:+ "." +:+ c +:+ "." +:+ d)
    with (a +:+ String "." (b +:+ String "." (c +:+ String "." d))).
  rewrite !str_split_app, str_split_free by auto.
  reflexivity.
Qed.

End Strings.

(** C5. For every CIDR string [a.b.c.d/n] whose four octets are strings of
    decimal digits, [get_dns_ip] returns [a.b.c.10] and [get_sdn_ip] returns
    [a.b.c.1], whatever the mask [n] is. *)
Theorem derived_addresses (a b c d n : string) :
  all_digits a = true -> all_digits b = true ->
  all_digits c = true -> all_digits d = true ->
  let cidr := a +:+ "." +:+ b +:+ "." +:+ c +:+ "." +:+ d +:+ "/" +:+ n in
  get_dns_ip cidr = a +:+ "." +:+ b +:+ "." +:+ c +:+ ".10"
  /\ get_sdn_ip cidr = a +:+ "." +:+ b +:+ "." +:+ c +:+ ".1".
Proof.
  intros Ha Hb Hc Hd cidr. unfold get_dns_ip, get_sdn_ip, cidr.
  rewrite derivation_prefix by done. by rewrite !app_assoc.
Qed.

(** The example of the specification: [10.1.2.0/24] gives the DNS address
    [10.1.2.10] and the gateway address [10.1.2.1]. *)
Lemma derived_addresses_sample :
  get_dns_ip "10.1.2.0/24" = "10.1.2.10"
  /\ get_sdn_ip "10.1.2.0/24" = "10.1.2.1".
Proof.
  exact (derived_addresses "10" "1" "2" "0" "24"
           eq_refl eq_refl eq_refl eq_refl).
Defined.

(** C10. For every input string the two derivations agree up to the final
    octet: the DNS address is the gateway address followed by the character
    [0].  Nothing about the input is checked. *)
Theorem dns_ip_is_sdn_ip_then_zero (cidr : string) :
  get_dns_ip cidr = get_sdn_ip cidr +:+ "0".
Proof. unfold get_dns_ip, get_sdn_ip. by rewrite app_assoc. Qed.

Example get_sdn_ip_no_mask : get_sdn_ip "192.168.0.7" = "192.168.0.1".
Proof. reflexivity. Qed.

Example get_dns_ip_no_dot : get_dns_ip "localhost/8" = ".10".
Proof. reflexivity. Qed.

Example get_dns_ip_second_slash : get_dns_ip "10.0.0.0/8/x.y" = "10.0.0.10".
Proof. reflexivity. Qed.

(** ** The monad *)

Ltac run :=
  cbv beta iota zeta delta
    [bind ret raise lift format emit call check_call check_output status_set
     log print set_state remove_state path_exists makedirs
     save_client_credentials render decode for_each flags paths trace after].

Lemma bind_ok {A B} (m : M A) (k : A -> M B) s a s' :
  m s = (Ok a, s') -> bind m k s = k a s'.
Proof. unfold bind. by intros ->. Qed.

Lemma bind_raise {A B} (m : M A) (k : A -> M B) s x s' :
  m s = (Raise x, s') -> bind m k s = (Raise x, s').
Proof. unfold bind. by intros ->. Qed.

Lemma after_after s t u : after (after s t) u = after s (t ++ u).
Proof. unfold after. simpl. by rewrite <- List.app_assoc. Qed.

(** ** Format strings of the layer *)

Lemma format_tar (archive files_dir : string) :
  str_format "tar -xvzf {0} -C {1}" [archive; files_dir]
  = Ok ("tar -xvzf " +:+ archive +:+ " -C " +:+ files_dir).
Proof. vm_compute str_format. by rewrite app_nil_r. Qed.

(** The install command line asks for a fourth argument where three are
    given. *)
Lemma format_install (files_dir service dest_dir : string) :
  str_format "install {0}/{1} {3}" [files_dir; service; dest_dir]
  = Raise IndexError.
Proof. reflexivity. Qed.

(** ** install *)

(** The first round of the loop fails while it builds its command line. *)
Lemma install_binary_raises e files_dir dest_dir service s :
  install_binary e files_dir dest_dir service s = (Raise IndexError, s).
Proof. unfold install_binary. run. by rewrite format_install. Qed.

Lemma install_loop_raises e files_dir dest_dir s :
  for_each services_to_install (install_binary e files_dir dest_dir) s
  = (Raise IndexError, s).
Proof.
  unfold services_to_install. simpl for_each.
  by rewrite (bind_raise _ _ _ _ _ (install_binary_raises _ _ _ _ _)).
Qed.

Lemma install_unfold e s :
  install e s
  = for_each services_to_install
      (install_binary e (files_directory e) "/usr/local/bin/")
      (after s [Run (tar_command e)]).
Proof.
  unfold install. run. rewrite format_tar. destruct s; reflexivity.
Qed.

(** C3, what the code does.  Whatever the surroundings are, also when every
    command exits with status 0, [install] raises [IndexError] after the
    archive extraction: no install-copy command is run and the error names no
    binary. *)
Theorem install_always_raises_index_error e s :
  install e s = (Raise IndexError, after s [Run (tar_command e)]).
Proof. by rewrite install_unfold, install_loop_raises. Qed.

(** C9. When the archive extraction exits with a non-zero status, the call
    itself returns that status without raising, and [install] goes on with
    the loop over the four binaries from the state the call leaves. *)
Theorem install_discards_tar_status e s :
  exit_status e (tar_command e) <> 0%Z ->
  call e (tar_command e) s
  = (Ok (exit_status e (tar_command e)), after s [Run (tar_command e)])
  /\ install e s
     = for_each services_to_install
         (install_binary e (files_directory e) "/usr/local/bin/")
         (after s [Run (tar_command e)]).
Proof. intros _. split; [by destruct s | apply install_unfold]. Qed.

(** ** Architecture detection *)

Lemma format_unsupported (architecture : string) :
  str_format "Unsupported machine architecture: {0}" [architecture]
  = Ok (unsupported_message architecture).
Proof. vm_compute str_format. by rewrite app_nil_r. Qed.

Lemma arch_supported e s :
  exit_status e dpkg_command = 0%Z ->
  Py.utf8_valid (detected e) = true ->
  detected e ∈ supported_architectures ->
  arch e s = (Ok (detected e), after s [Run dpkg_command]).
Proof.
  intros Hexit Hutf Hin. destruct s as [fl ps tr]. unfold arch. run.
  fold dpkg_command. rewrite Hexit. cbn [Z.eqb].
  fold (detected e). rewrite Hutf.
  by rewrite (bool_decide_eq_true_2 _ Hin).
Qed.

Lemma arch_unsupported e s :
  exit_status e dpkg_command = 0%Z ->
  Py.utf8_valid (detected e) = true ->
  detected e ∉ supported_architectures ->
  arch e s
  = (Raise (Exception (unsupported_message (detected e))),
     after s [Run dpkg_command;
              StatusSet "blocked" (unsupported_message (detected e))]).
Proof.
  intros Hexit Hutf Hin. destruct s as [fl ps tr]. unfold arch. run.
  fold dpkg_command. rewrite Hexit. cbn [Z.eqb].
  fold (detected e). rewrite Hutf.
  rewrite (bool_decide_eq_false_2 _ Hin). cbn [negb].
  rewrite format_unsupported. by rewrite <- List.app_assoc.
Qed.

(** ** Network parameters *)

Lemma gather_sdn_data_ok e s cidr :
  dns_source e = VStr cidr ->
  gather_sdn_data e s
  = (Ok ({[ "pillar" := VDict (pillar_of e cidr) ]} : gmap string value), s).
Proof.
  unfold dns_source, gather_sdn_data. intros Hsrc.
  destruct (truthy (dict_get (kv e) "sdn_subnet")); rewrite Hsrc; run;
    do 3 f_equal; unfold pillar_of; apply map_eq; intros k;
    repeat (rewrite lookup_insert; case_decide; [done|]); done.
Qed.

Lemma gather_sdn_data_fails e s :
  (forall cidr, dns_source e <> VStr cidr) ->
  gather_sdn_data e s = (Raise AttributeError, s).
Proof.
  unfold dns_source, gather_sdn_data. intros Hsrc.
  destruct (truthy (dict_get (kv e) "sdn_subnet"));
    match goal with
    | H : forall _, ?v <> _ |- _ =>
        destruct v as [| | |str|]; try done; by destruct (H str)
    end.
Qed.

(** ** The render context *)

Lemma bind_ext {A B} (m : M A) (k k' : A -> M B) s s' :
  s = s' -> (forall a st, k a st = k' a st) -> bind m k s = bind m k' s'.
Proof.
  intros -> Hk. unfold bind. destruct (m s') as [[a|x] st]; [apply Hk|done].
Qed.


Lemma directories_differ e : kube_directory e <> manifest_directory e.
Proof.
  unfold kube_directory, manifest_directory, Py.path_join.
  cbn [Py.starts_with_sep Ascii.eqb Bool.eqb].
  destruct (_ || _); intros H; repeat apply (inj (String.app _)) in H; done.
Qed.

(** Ensuring a directory: created when absent, left alone when present. *)
Lemma ensure_directory_run {B} p (k : M B) s :
  (present <- path_exists p ;;
   (if negb present then makedirs p else ret tt) ;;; k) s
  = k (State (flags s) ({[p]} ∪ paths s) (trace s ++ ensure_events p (paths s))).
Proof.
  destruct s as [fl ps tr]. unfold ensure_events. run.
  case_bool_decide; cbn [negb]; [|done].
  rewrite List.app_nil_r. do 2 f_equal. set_solver.
Qed.

Lemma render_context_run e reldata s cidr :
  dns_source e = VStr cidr ->
  render_context e reldata s
  = bind (arch e) (fun a => ret (full_context e reldata cidr a))
         (prepared e reldata s).
Proof.
  intros Hsrc. unfold render_context.
  rewrite (bind_ok _ _ _ _ _ (gather_sdn_data_ok _ _ _ Hsrc)).
  pose proof (directories_differ e) as Hne.
  erewrite bind_ok.
  2:{ instantiate (1 := after s (credential_events reldata)).
      instantiate (1 := match descriptor reldata with Some rel => _ | None => _ end).
      unfold credential_events, descriptor. destruct s as [fl ps tr].
      destruct reldata as [rel|]; [destruct (rel_truthy rel)|]; run;
        rewrite ?List.app_nil_r; reflexivity. }
  fold (kube_directory e). fold (manifest_directory e).
  rewrite !ensure_directory_run.
  apply bind_ext.
  - unfold prepared, after, ensure_events. cbn [flags paths trace].
    f_equal; [set_solver|].
    rewrite <- !List.app_assoc. do 3 f_equal.
    repeat case_bool_decide; set_solver.
  - intros a st. unfold full_context, dict_update.
    by destruct (descriptor reldata).
Qed.

(** ** What a computation leaves invariant *)

Section Respects.

Context (R : relation state) `{!PreOrder R}.

Lemma respects_ret {A} (a : A) : respects R (ret a).
Proof. intros s. reflexivity. Qed.

Lemma respects_raise {A} x : respects R (raise (A := A) x).
Proof. intros s. reflexivity. Qed.

Lemma respects_lift {A} (r : result A) : respects R (lift r).
Proof. intros s. reflexivity. Qed.

Lemma respects_format fmt args : respects R (format fmt args).
Proof. apply respects_lift. Qed.

Lemma respects_path_exists p : respects R (path_exists p).
Proof. intros s. reflexivity. Qed.

Lemma respects_bind {A B} (m : M A) (k : A -> M B) :
  respects R m -> (forall a, respects R (k a)) -> respects R (bind m k).
Proof.
  intros Hm Hk s. unfold bind. specialize (Hm s).
  destruct (m s) as [[a|x] s1]; [|done].
  etrans; [exact Hm|apply Hk].
Qed.

Lemma respects_for_each {A} (l : list A) (body : A -> M unit) :
  (forall a, respects R (body a)) -> respects R (for_each l body).
Proof.
  intros Hbody. induction l as [|a l IH]; simpl.
  - apply respects_ret.
  - apply respects_bind; [apply Hbody|by intros _].
Qed.

End Respects.

Global Instance same_flags_preorder : PreOrder same_flags.
Proof.
  split; [by intros s|]. intros s1 s2 s3. unfold same_flags. congruence.
Qed.

Global Instance grows_by_preorder P : PreOrder (grows_by P).
Proof.
  split.
  - intros s. exists []. by rewrite List.app_nil_r.
  - intros s1 s2 s3 (t & Ht & HP) (u & Hu & HQ). exists (t ++ u).
    rewrite Hu, Ht, <- List.app_assoc. split; [done|by apply Forall_app].
Qed.

Lemma grows_by_mono (P Q : event -> Prop) {A} (m : M A) :
  (forall ev, P ev -> Q ev) ->
  respects (grows_by P) m -> respects (grows_by Q) m.
Proof.
  intros HPQ Hm s. destruct (Hm s) as (t & Ht & HP).
  exists t. split; [done|]. eapply Forall_impl; eauto.
Qed.

Lemma emit_same_flags ev : respects same_flags (emit ev).
Proof. by intros s. Qed.

Lemma emit_grows (P : event -> Prop) ev : P ev -> respects (grows_by P) (emit ev).
Proof. intros HP s. exists [ev]. split; [done|by constructor]. Qed.

Lemma makedirs_same_flags p : respects same_flags (makedirs p).
Proof. by intros s. Qed.

Lemma makedirs_grows (P : event -> Prop) p :
  P (MakeDirs p) -> respects (grows_by P) (makedirs p).
Proof. intros HP s. exists [MakeDirs p]. split; [done|by constructor]. Qed.

Lemma set_state_grows (P : event -> Prop) flag :
  P (SetState flag) -> respects (grows_by P) (set_state flag).
Proof. intros HP s. exists [SetState flag]. split; [done|by constructor]. Qed.

Create HintDb effects.
#[export] Hint Resolve respects_ret respects_raise respects_lift
  respects_format respects_path_exists respects_for_each
  emit_same_flags emit_grows makedirs_same_flags makedirs_grows
  set_state_grows : effects.
#[export] Hint Constructors render_effect : effects.

(** Break a computation into its steps and settle each of them. *)
Ltac effects :=
  repeat first
    [ solve [eauto with effects typeclass_instances]
    | apply respects_bind; [apply _| |intros ?]
    | match goal with
      | |- respects _ (if ?b then _ else _) => destruct b
      | |- respects _ (match ?x with _ => _ end) => destruct x
      end ].

(** Every step of a render is among [render_effect]; in particular no
    charm state is touched. *)
Section RenderEffects.

Context (e : env) (R : relation state) `{!PreOrder R}.
Hypothesis emit_respects : forall ev, render_effect ev -> respects R (emit ev).
Hypothesis makedirs_respects : forall p, respects R (makedirs p).

Local Hint Resolve emit_respects makedirs_respects : effects.

Lemma arch_effects : respects R (arch e).
Proof.
  unfold arch, check_output, call, decode, status_set.
  fold dpkg_command. effects.
Qed.

Lemma gather_sdn_data_effects : respects R (gather_sdn_data e).
Proof. unfold gather_sdn_data, get_dns_ip_of. effects. Qed.

Lemma render_service_effects service context :
  respects R (render_service service context).
Proof. unfold render_service, render. effects. Qed.

Lemma render_files_effects reldata : respects R (render_files e reldata).
Proof.
  pose proof arch_effects. pose proof gather_sdn_data_effects.
  pose proof render_service_effects.
  unfold render_files, render_context, save_client_credentials. effects.
Qed.

End RenderEffects.

Lemma render_files_same_flags e reldata s :
  flags (snd (render_files e reldata s)) = flags s.
Proof.
  apply (render_files_effects e same_flags); auto with effects; apply _.
Qed.

Lemma render_files_grows e reldata :
  respects (grows_by render_effect) (render_files e reldata).
Proof.
  apply render_files_effects; [apply _| |].
  - intros ev Hev. by apply emit_grows.
  - intros p. apply makedirs_grows. constructor.
Qed.

(** ** Starting services *)

Lemma format_start (service : string) :
  str_format "systemctl start {0}" [service] = Ok (start_command service).
Proof. vm_compute str_format. by rewrite app_nil_r. Qed.

Lemma format_available (service : string) :
  str_format "{0}.available" [service] = Ok (available service).
Proof. reflexivity. Qed.

Lemma start_service_run e service s :
  start_service e service s
  = (Ok (started e service),
     after s [Print (start_command service); Run (start_command service)]).
Proof.
  destruct s as [fl ps tr]. unfold start_service. run.
  rewrite format_start. by rewrite <- List.app_assoc.
Qed.

Lemma start_and_flag_run e service s :
  start_and_flag e service s
  = (Ok tt,
     State (start_flags e [service] ∪ flags s) (paths s)
           (trace s ++ start_events e service)).
Proof.
  unfold start_and_flag.
  rewrite (bind_ok _ _ _ _ _ (start_service_run _ _ _)).
  unfold start_flags, start_events. rewrite filter_cons, filter_nil.
  destruct s as [fl ps tr]. case_decide as Hst.
  - rewrite Hst. run. rewrite format_available.
    f_equal. f_equal; [set_solver|by rewrite <- List.app_assoc].
  - apply not_true_is_false in Hst. rewrite Hst. run.
    f_equal. f_equal. set_solver.
Qed.

Lemma start_flags_cons e service services :
  start_flags e (service :: services)
  = start_flags e [service] ∪ start_flags e services.
Proof.
  unfold start_flags. rewrite !filter_cons, filter_nil.
  case_decide; set_solver.
Qed.

(** The loop of [start_master], by induction on the services. *)
Lemma start_loop e services s :
  for_each services (start_and_flag e) s
  = (Ok tt,
     State (start_flags e services ∪ flags s) (paths s)
           (trace s ++ flat_map (start_events e) services)).
Proof.
  revert s. induction services as [|service services IH]; intros s.
  - destruct s as [fl ps tr]. simpl. unfold ret, start_flags. simpl.
    rewrite List.app_nil_r. f_equal. f_equal. set_solver.
  - simpl for_each.
    rewrite (bind_ok _ _ _ _ _ (start_and_flag_run _ _ _)), IH.
    rewrite (start_flags_cons e service services).
    cbn [flags paths trace flat_map]. f_equal. f_equal; [set_solver|].
    by rewrite <- List.app_assoc.
Qed.






(** ** launch_dns *)

Lemma launch_dns_probe_failed e s :
  exit_status e probe_command <> 0%Z ->
  launch_dns e s
  = (Ok tt,
     State (flags s ∖ {["kubedns.available"]}) (paths s)
           (trace s
            ++ [dns_status; Run probe_command;
                Log "kubectl command failed, waiting for apiserver to start.";
                RemoveState "kubedns.available"])).
Proof.
  intros Hprobe%Z.eqb_neq. destruct s as [fl ps tr]. unfold launch_dns. run.
  fold probe_command. rewrite Hprobe. cbn [negb].
  by rewrite <- !List.app_assoc.
Qed.

Lemma launch_dns_namespace_present e s :
  exit_status e probe_command = 0%Z ->
  exit_status e namespace_check_command = 0%Z ->
  launch_dns e s
  = dns_addon e
      (after s [dns_status; Run probe_command; Run namespace_check_command]).
Proof.
  intros Hprobe Hcheck. destruct s as [fl ps tr]. unfold launch_dns.
  unfold status_set, call.
  erewrite bind_ok by reflexivity.
  erewrite bind_ok by reflexivity.
  fold probe_command. rewrite Hprobe. cbn [negb Z.eqb].
  erewrite bind_ok by reflexivity.
  fold namespace_check_command. rewrite Hcheck. cbn [negb Z.eqb].
  erewrite bind_ok by reflexivity.
  unfold after. cbn [flags paths trace emit]. by rewrite <- !List.app_assoc.
Qed.

Lemma launch_dns_namespace_absent e s :
  exit_status e probe_command = 0%Z ->
  exit_status e namespace_check_command <> 0%Z ->
  launch_dns e s
  = bind (check_call e namespace_create_command) (fun _ => dns_addon e)
      (after s [dns_status; Run probe_command; Run namespace_check_command]).
Proof.
  intros Hprobe Hcheck%Z.eqb_neq. destruct s as [fl ps tr]. unfold launch_dns.
  unfold status_set, call.
  erewrite bind_ok by reflexivity.
  erewrite bind_ok by reflexivity.
  fold probe_command. rewrite Hprobe. cbn [negb Z.eqb].
  erewrite bind_ok by reflexivity.
  fold namespace_check_command. rewrite Hcheck. cbn [negb].
  unfold after. cbn [flags paths trace emit]. by rewrite <- !List.app_assoc.
Qed.

Lemma check_call_run e cmd s :
  check_call e cmd s
  = (if (exit_status e cmd =? 0)%Z then Ok tt
     else Raise (CalledProcessError (exit_status e cmd) cmd),
     after s [Run cmd]).
Proof.
  destruct s as [fl ps tr]. unfold check_call. run.
  by destruct (exit_status e cmd =? 0)%Z.
Qed.

(** Nothing after the namespace step creates a namespace. *)
Lemma dns_addon_creates_nothing e :
  respects (grows_by (fun ev => ev <> Run namespace_create_command))
           (dns_addon e).
Proof.
  unfold dns_addon. apply respects_bind; [apply _| |intros _].
  - apply (grows_by_mono render_effect); [|apply render_files_grows].
    by intros ev [].
  - apply respects_bind; [apply _| |intros [|]].
    + intros s. rewrite start_service_run. eexists. split; [done|].
      by repeat constructor.
    + by apply set_state_grows.
    + apply respects_ret. apply _.
Qed.

(** C7. After a successful cluster probe, [launch_dns] runs the namespace
    creation command exactly when the namespace existence check exits with a
    non-zero status, so an existing namespace is never created again; and
    when the creation command itself exits with a non-zero status the
    handler raises [CalledProcessError] right there. *)
Theorem launch_dns_namespace e s :
  exit_status e probe_command = 0%Z ->
  exists t,
    trace (snd (launch_dns e s)) = trace s ++ t
    /\ (Run namespace_create_command ∈ t
        <-> exit_status e namespace_check_command <> 0%Z)
    /\ (exit_status e namespace_check_command <> 0%Z ->
        exit_status e namespace_create_command <> 0%Z ->
        launch_dns e s
        = (Raise (CalledProcessError (exit_status e namespace_create_command)
                                     namespace_create_command),
           after s [dns_status; Run probe_command;
                    Run namespace_check_command;
                    Run namespace_create_command])).
Proof.
  intros Hprobe.
  destruct (decide (exit_status e namespace_check_command = 0%Z))
    as [Hcheck|Hcheck].
  - rewrite (launch_dns_namespace_present _ _ Hprobe Hcheck).
    destruct (dns_addon_creates_nothing e
                (after s [dns_status; Run probe_command;
                          Run namespace_check_command])) as (t & -> & Ht).
    eexists. split; [cbn [trace after]; by rewrite <- List.app_assoc|].
    split; [|done]. split; [|done].
    rewrite Forall_forall in Ht. intros Hin. exfalso.
    apply elem_of_app in Hin as [Hin|Hin]; [|by apply (Ht _ Hin)].
    set_solver.
  - rewrite (launch_dns_namespace_absent _ _ Hprobe Hcheck).
    unfold bind. rewrite check_call_run.
    destruct (exit_status e namespace_create_command =? 0)%Z eqn:Hcreate.
    + destruct (dns_addon_creates_nothing e
                  (after (after s [dns_status; Run probe_command;
                                   Run namespace_check_command])
                         [Run namespace_create_command])) as (t & -> & Ht).
      eexists. split.
      { cbn [trace after]. by rewrite <- !List.app_assoc. }
      apply Z.eqb_eq in Hcreate. split; [|done]. split; [done|].
      intros _. set_solver.
    + eexists. split.
      { cbn [snd trace after]. by rewrite <- !List.app_assoc. }
      split; [split; [done|intros _; set_solver]|].
      intros _ _. unfold after. cbn [flags paths trace].
      by rewrite <- !List.app_assoc.
Qed.

(** ** render_files *)

Lemma render_service_run service context s :
  service ∈ rendered_services ->
  render_service service context s
  = (Ok tt, after s (service_renders context service)).
Proof.
  intros Hin. destruct s as [fl ps tr]. unfold rendered_services in Hin.
  repeat (apply elem_of_cons in Hin as [->|Hin]);
    [| | | |by apply elem_of_nil in Hin];
    unfold render_service; run; simpl; by rewrite <- List.app_assoc.
Qed.

Lemma render_context_ok e reldata s cidr a :
  dns_source e = VStr cidr -> reports e a -> a ∈ supported_architectures ->
  render_context e reldata s
  = (Ok (full_context e reldata cidr a),
     after (prepared e reldata s) [Run dpkg_command]).
Proof.
  intros Hsrc (Hexit & Hutf & <-) Hin.
  rewrite (render_context_run _ _ _ _ Hsrc).
  by rewrite (bind_ok _ _ _ _ _ (arch_supported _ _ Hexit Hutf Hin)).
Qed.

Lemma render_context_blocked e reldata s cidr a :
  dns_source e = VStr cidr -> reports e a -> a ∉ supported_architectures ->
  render_context e reldata s
  = (Raise (Exception (unsupported_message a)),
     after (prepared e reldata s)
       [Run dpkg_command; StatusSet "blocked" (unsupported_message a)]).
Proof.
  intros Hsrc (Hexit & Hutf & <-) Hin.
  rewrite (render_context_run _ _ _ _ Hsrc).
  by rewrite (bind_raise _ _ _ _ _ (arch_unsupported _ _ Hexit Hutf Hin)).
Qed.

Lemma render_files_ok e reldata s cidr a :
  dns_source e = VStr cidr -> reports e a -> a ∈ supported_architectures ->
  render_files e reldata s
  = (Ok tt,
     after (prepared e reldata s)
       ([Run dpkg_command]
        ++ flat_map (service_renders (full_context e reldata cidr a))
                    rendered_services)).
Proof.
  intros Hsrc Hrep Hin. unfold render_files.
  rewrite (bind_ok _ _ _ _ _ (render_context_ok _ _ _ _ _ Hsrc Hrep Hin)).
  repeat (erewrite bind_ok;
          [|apply render_service_run; unfold rendered_services; set_solver]).
  rewrite render_service_run by (unfold rendered_services; set_solver).
  rewrite !after_after. reflexivity.
Qed.

Lemma no_render_in_preparation e reldata s :
  existsb is_render
    (credential_events reldata
     ++ ensure_events (kube_directory e) (paths s)
     ++ ensure_events (manifest_directory e) (paths s)) = false.
Proof.
  unfold credential_events, ensure_events.
  destruct (descriptor reldata); repeat case_bool_decide; reflexivity.
Qed.

Lemma render_files_without_source e reldata s :
  (forall cidr, dns_source e <> VStr cidr) ->
  render_files e reldata s = (Raise AttributeError, s).
Proof.
  intros Hsrc. unfold render_files, render_context.
  by rewrite (bind_raise _ _ _ _ _
                (bind_raise _ _ _ _ _ (gather_sdn_data_fails _ _ Hsrc))).
Qed.

Lemma render_files_blocked e reldata s cidr a :
  dns_source e = VStr cidr -> reports e a -> a ∉ supported_architectures ->
  render_files e reldata s
  = (Raise (Exception (unsupported_message a)),
     after (prepared e reldata s)
       [Run dpkg_command; StatusSet "blocked" (unsupported_message a)]).
Proof.
  intros Hsrc Hrep Hin. unfold render_files.
  by rewrite (bind_raise _ _ _ _ _
                (render_context_blocked _ _ _ _ _ Hsrc Hrep Hin)).
Qed.

(** C6. Let [a] be what the packaging subsystem reports, trailing
    whitespace removed.  When [a] is one of amd64, arm, arm64, ppc64le,
    [arch] returns [a] itself.  For any other [a] it sets the unit status to
    blocked with a message that names [a] and then raises an exception with
    that message; an enclosing [render_files] then ends with an exception
    too, the one of [arch] whenever the network parameters could be built,
    and has rendered no file. *)
Theorem arch_returns_or_blocks e a s :
  reports e a ->
  (a ∈ supported_architectures ->
   arch e s = (Ok a, after s [Run dpkg_command]))
  /\ (a ∉ supported_architectures ->
      arch e s
      = (Raise (Exception (unsupported_message a)),
         after s [Run dpkg_command;
                  StatusSet "blocked" (unsupported_message a)])
      /\ forall reldata, exists x t,
           fst (render_files e reldata s) = Raise x
           /\ trace (snd (render_files e reldata s)) = trace s ++ t
           /\ existsb is_render t = false
           /\ (forall cidr, dns_source e = VStr cidr ->
               x = Exception (unsupported_message a))).
Proof.
  intros Hrep. pose proof Hrep as (Hexit & Hutf & <-). split; [|split].
  - by apply arch_supported.
  - by apply arch_unsupported.
  - intros reldata.
    destruct (dns_source e) as [| | |cidr|] eqn:Hsrc.
    4:{ rewrite (render_files_blocked _ _ _ _ _ Hsrc Hrep) by done.
        exists (Exception (unsupported_message (detected e))).
        exists ((credential_events reldata
                 ++ ensure_events (kube_directory e) (paths s)
                 ++ ensure_events (manifest_directory e) (paths s))
                ++ [Run dpkg_command;
                    StatusSet "blocked" (unsupported_message (detected e))]).
        split; [done|]. split; [|split].
        - cbn [snd trace after prepared]. by rewrite <- !List.app_assoc.
        - by rewrite existsb_app, no_render_in_preparation.
        - done. }
    all: rewrite render_files_without_source by (intros ?; by rewrite Hsrc).
    all: exists AttributeError, []; by rewrite List.app_nil_r.
Qed.

(** ** The context handed to the templates *)

Lemma node_entries_miss e a k :
  k ∈ etcd_keys -> node_entries e a !! k = None.
Proof.
  unfold etcd_keys. intros Hk.
  repeat (apply elem_of_cons in Hk as [->|Hk]);
    [reflexivity..|by apply elem_of_nil in Hk].
Qed.

Lemma network_entries_miss (p : gmap string value) k :
  k ∈ etcd_keys -> ({[ "pillar" := VDict p ]} : gmap string value) !! k = None.
Proof.
  unfold etcd_keys. intros Hk.
  repeat (apply elem_of_cons in Hk as [->|Hk]);
    [reflexivity..|by apply elem_of_nil in Hk].
Qed.

Lemma full_context_etcd e rel reldata cidr a k :
  descriptor reldata = Some rel -> k ∈ etcd_keys ->
  full_context e reldata cidr a !! k = etcd_entries rel !! k.
Proof.
  intros Hd Hk. unfold full_context, dict_update. rewrite Hd.
  rewrite lookup_union_r by by apply node_entries_miss.
  apply lookup_union_l'. unfold etcd_keys in Hk.
  repeat (apply elem_of_cons in Hk as [->|Hk]);
    [by eexists..|by apply elem_of_nil in Hk].
Qed.

Lemma full_context_config e reldata cidr a k :
  descriptor reldata = None -> k ∈ etcd_keys ->
  full_context e reldata cidr a !! k = config e !! k.
Proof.
  intros Hd Hk. unfold full_context, dict_update. rewrite Hd.
  rewrite lookup_union_r by by apply node_entries_miss.
  rewrite lookup_union, network_entries_miss by done.
  by destruct (config e !! k).
Qed.

(** C4, amended.  Whenever the context is built (the source of
    the DNS address is a string and the architecture is supported): with a
    truthy connection descriptor the context holds [connection_string],
    [etcd_ca], [etcd_key], [etcd_cert] and [etcd_dir] with the connection
    string of the descriptor, the three paths under [/etc/ssl/etcd] and that
    directory, and the credentials are saved to those paths; without one,
    each of the five keys is held exactly as the unit configuration holds
    it, and no credentials are saved. *)
Theorem render_context_etcd_entries e reldata s cidr a :
  dns_source e = VStr cidr -> reports e a -> a ∈ supported_architectures ->
  exists context t,
    render_context e reldata s
    = (Ok context,
       State (flags s)
             ({[kube_directory e; manifest_directory e]} ∪ paths s)
             (trace s ++ t))
    /\ match descriptor reldata with
       | Some rel =>
           context !! "connection_string"
           = Some (VStr (get_connection_string rel))
           /\ context !! "etcd_ca" = Some (VStr "/etc/ssl/etcd/client-ca.pem")
           /\ context !! "etcd_key"
              = Some (VStr "/etc/ssl/etcd/client-key.pem")
           /\ context !! "etcd_cert"
              = Some (VStr "/etc/ssl/etcd/client-cert.pem")
           /\ context !! "etcd_dir" = Some (VStr "/etc/ssl/etcd")
           /\ SaveClientCredentials "/etc/ssl/etcd/client-key.pem"
                                    "/etc/ssl/etcd/client-cert.pem"
                                    "/etc/ssl/etcd/client-ca.pem" ∈ t
       | None =>
           (forall k, k ∈ etcd_keys -> context !! k = config e !! k)
           /\ existsb is_save_credentials t = false
       end.
Proof.
  intros Hsrc Hrep Hin.
  exists (full_context e reldata cidr a).
  exists (credential_events reldata
          ++ ensure_events (kube_directory e) (paths s)
          ++ ensure_events (manifest_directory e) (paths s)
          ++ [Run dpkg_command]).
  split.
  - rewrite (render_context_ok _ _ _ _ _ Hsrc Hrep Hin).
    unfold after, prepared. cbn [flags paths trace].
    by rewrite <- !List.app_assoc.
  - destruct (descriptor reldata) as [rel|] eqn:Hd.
    + rewrite !(full_context_etcd _ rel) by (done || (unfold etcd_keys; set_solver)).
      unfold credential_events. rewrite Hd.
      repeat split; set_solver.
    + split; [intros k Hk; by apply full_context_config|].
      unfold credential_events, ensure_events. rewrite Hd.
      by repeat case_bool_decide.
Qed.

(** C8, amended.  Whenever the context is built (the source of the DNS
    address is a string and the architecture is supported), [render_files]
    returns normally, with or without a descriptor.  It has then, in this
    order, saved the credentials of a truthy descriptor, created each of
    the two working directories exactly when it was absent, so that both
    exist afterwards, run the packaging command, and rendered the unit file
    and the defaults file of kube-apiserver, kube-controller-manager,
    kube-scheduler and kube-dns, in this order and all against the context
    [render_context] returns.  The network parameters are the single entry
    [pillar], a dictionary of [dns_server], [dns_replicas] = 1 and
    [dns_domain]; the DNS address is derived from the persisted subnet fact
    when that is present (truthy), from the configured [cidr] option
    otherwise. *)
Theorem render_files_renders_all e reldata s cidr a :
  dns_source e = VStr cidr -> reports e a -> a ∈ supported_architectures ->
  (exists context,
     fst (render_context e reldata s) = Ok context
     /\ render_files e reldata s
        = (Ok tt,
           State (flags s)
                 ({[kube_directory e; manifest_directory e]} ∪ paths s)
                 (trace s
                  ++ credential_events reldata
                  ++ ensure_events (kube_directory e) (paths s)
                  ++ ensure_events (manifest_directory e) (paths s)
                  ++ [Run dpkg_command]
                  ++ flat_map (service_renders context) rendered_services)))
  /\ gather_sdn_data e s
     = (Ok {[ "pillar" :=
                VDict {[ "dns_server" := VStr (get_dns_ip cidr);
                         "dns_replicas" := VInt 1;
                         "dns_domain" := dict_get (config e) "dns_domain" ]} ]},
        s)
  /\ (truthy (dict_get (kv e) "sdn_subnet") = true ->
      dict_get (kv e) "sdn_subnet" = VStr cidr)
  /\ (truthy (dict_get (kv e) "sdn_subnet") = false ->
      dict_get (config e) "cidr" = VStr cidr).
Proof.
  intros Hsrc Hrep Hin. split; [|split; [|split]].
  - exists (full_context e reldata cidr a). split.
    + by rewrite (render_context_ok _ _ _ _ _ Hsrc Hrep Hin).
    + rewrite (render_files_ok _ _ _ _ _ Hsrc Hrep Hin).
      unfold after, prepared. cbn [flags paths trace].
      by rewrite <- !List.app_assoc.
  - by apply gather_sdn_data_ok.
  - unfold dns_source in Hsrc. intros Ht. by rewrite Ht in Hsrc.
  - unfold dns_source in Hsrc. intros Ht. by rewrite Ht in Hsrc.
Qed.

(** ** The statements at sample surroundings *)

Lemma install_discards_tar_status_witness :
  exit_status tar_fails_env (tar_command tar_fails_env) <> 0%Z
  /\ call tar_fails_env (tar_command tar_fails_env) fresh
     = (Ok (exit_status tar_fails_env (tar_command tar_fails_env)),
        after fresh [Run (tar_command tar_fails_env)])
  /\ install tar_fails_env fresh
     = for_each services_to_install
         (install_binary tar_fails_env (files_directory tar_fails_env)
                         "/usr/local/bin/")
         (after fresh [Run (tar_command tar_fails_env)]).
Proof.
  assert (H : exit_status tar_fails_env (tar_command tar_fails_env) <> 0%Z)
    by (vm_compute; discriminate).
  exact (conj H (install_discards_tar_status tar_fails_env fresh H)).
Defined.

Example install_sample :
  install sample_env fresh
  = (Raise IndexError,
     State ∅ ∅
       [Run "tar -xvzf /var/lib/juju/charm/files/kubernetes.tar.gz -C /var/lib/juju/charm/files"]).
Proof. vm_compute. reflexivity. Qed.


Example start_master_sample :
  flags (snd (start_master scheduler_down_env sample_etcd fresh))
  = {[ "kube-apiserver.available"; "kube-controller-manager.available" ]}.
Proof. vm_compute. reflexivity. Qed.

Lemma arch_returns_or_blocks_witness :
  reports mips_env "mips"
  /\ ("mips" ∉ supported_architectures)
  /\ arch mips_env fresh
     = (Raise (Exception (unsupported_message "mips")),
        after fresh [Run dpkg_command;
                     StatusSet "blocked" (unsupported_message "mips")])
  /\ reports sample_env "amd64"
  /\ arch sample_env fresh = (Ok "amd64", after fresh [Run dpkg_command]).
Proof.
  assert (Hm : reports mips_env "mips")
    by (vm_compute; repeat split; reflexivity).
  assert (Hs : reports sample_env "amd64")
    by (vm_compute; repeat split; reflexivity).
  assert (Hout : "mips" ∉ supported_architectures)
    by (apply (bool_decide_unpack _); vm_compute; exact I).
  assert (Hin : "amd64" ∈ supported_architectures)
    by (apply (bool_decide_unpack _); vm_compute; exact I).
  split; [exact Hm|]. split; [exact Hout|].
  split.
  - exact (proj1 (proj2 (arch_returns_or_blocks mips_env "mips" fresh Hm)
                    Hout)).
  - split; [exact Hs|].
    exact (proj1 (arch_returns_or_blocks sample_env "amd64" fresh Hs) Hin).
Defined.

Lemma launch_dns_namespace_witness :
  exit_status namespace_missing_env probe_command = 0%Z
  /\ exists t,
       trace (snd (launch_dns namespace_missing_env fresh)) = trace fresh ++ t
       /\ (Run namespace_create_command ∈ t
           <-> exit_status namespace_missing_env namespace_check_command
               <> 0%Z)
       /\ (exit_status namespace_missing_env namespace_check_command <> 0%Z ->
           exit_status namespace_missing_env namespace_create_command
           <> 0%Z ->
           launch_dns namespace_missing_env fresh
           = (Raise (CalledProcessError
                       (exit_status namespace_missing_env
                                    namespace_create_command)
                       namespace_create_command),
              after fresh [dns_status; Run probe_command;
                           Run namespace_check_command;
                           Run namespace_create_command])).
Proof.
  assert (H : exit_status namespace_missing_env probe_command = 0%Z)
    by reflexivity.
  exact (conj H (launch_dns_namespace namespace_missing_env fresh H)).
Defined.

Example launch_dns_existing_namespace :
  trace (snd (launch_dns sample_env fresh))
  = [dns_status; Run probe_command; Run namespace_check_command;
     MakeDirs "/var/lib/juju/charm/files/kubernetes";
     MakeDirs "/var/lib/juju/charm/files/manifests";
     Run dpkg_command]
    ++ flat_map
         (service_renders (full_context sample_env None "10.1.2.0/24" "amd64"))
         rendered_services
    ++ [Print "systemctl start kube-dns"; Run "systemctl start kube-dns";
        SetState "kube-dns.available"].
Proof. vm_compute. reflexivity. Qed.

Example launch_dns_creation_fails :
  launch_dns namespace_missing_env fresh
  = (Raise (CalledProcessError 1 "kubectl create namespace kube-system"),
     State ∅ ∅ [dns_status; Run probe_command; Run namespace_check_command;
                Run namespace_create_command]).
Proof. vm_compute. reflexivity. Qed.

Lemma render_files_renders_all_witness :
  dns_source etcd_configured_env = VStr "10.9.0.0/16"
  /\ reports etcd_configured_env "amd64"
  /\ "amd64" ∈ supported_architectures
  /\ (exists context,
        fst (render_context etcd_configured_env (Some sample_etcd) fresh)
        = Ok context
        /\ render_files etcd_configured_env (Some sample_etcd) fresh
           = (Ok tt,
              State (flags fresh)
                    ({[kube_directory etcd_configured_env;
                       manifest_directory etcd_configured_env]}
                     ∪ paths fresh)
                    (trace fresh
                     ++ credential_events (Some sample_etcd)
                     ++ ensure_events (kube_directory etcd_configured_env)
                                      (paths fresh)
                     ++ ensure_events (manifest_directory etcd_configured_env)
                                      (paths fresh)
                     ++ [Run dpkg_command]
                     ++ flat_map (service_renders context)
                                 rendered_services)))
  /\ gather_sdn_data etcd_configured_env fresh
     = (Ok {[ "pillar" :=
                VDict {[ "dns_server" := VStr (get_dns_ip "10.9.0.0/16");
                         "dns_replicas" := VInt 1;
                         "dns_domain" :=
                           dict_get (config etcd_configured_env)
                                    "dns_domain" ]} ]},
        fresh).
Proof.
  assert (Hsrc : dns_source etcd_configured_env = VStr "10.9.0.0/16")
    by (vm_compute; reflexivity).
  assert (Hrep : reports etcd_configured_env "amd64")
    by (vm_compute; repeat split; reflexivity).
  assert (Hin : "amd64" ∈ supported_architectures)
    by (apply (bool_decide_unpack _); vm_compute; exact I).
  pose proof (render_files_renders_all etcd_configured_env (Some sample_etcd)
                fresh "10.9.0.0/16" "amd64" Hsrc Hrep Hin)
    as (Hfiles & Hsdn & _).
  exact (conj Hsrc (conj Hrep (conj Hin (conj Hfiles Hsdn)))).
Defined.

Example render_files_twice :
  paths (snd (render_files sample_env None fresh))
  = {[ "/var/lib/juju/charm/files/kubernetes";
       "/var/lib/juju/charm/files/manifests" ]}
  /\ existsb (fun ev => match ev with MakeDirs _ => true | _ => false end)
       (trace (snd (render_files sample_env None
                      (State ∅ (paths (snd (render_files sample_env None
                                              fresh))) []))))
     = false.
Proof. split; vm_compute; reflexivity. Qed.

Lemma render_context_etcd_entries_witness :
  dns_source etcd_configured_env = VStr "10.9.0.0/16"
  /\ reports etcd_configured_env "amd64"
  /\ "amd64" ∈ supported_architectures
  /\ exists context t,
       render_context etcd_configured_env None fresh
       = (Ok context,
          State (flags fresh)
                ({[kube_directory etcd_configured_env;
                   manifest_directory etcd_configured_env]} ∪ paths fresh)
                (trace fresh ++ t))
       /\ (forall k, k ∈ etcd_keys ->
           context !! k = config etcd_configured_env !! k)
       /\ existsb is_save_credentials t = false.
Proof.
  assert (Hsrc : dns_source etcd_configured_env = VStr "10.9.0.0/16")
    by (vm_compute; reflexivity).
  assert (Hrep : reports etcd_configured_env "amd64")
    by (vm_compute; repeat split; reflexivity).
  assert (Hin : "amd64" ∈ supported_architectures)
    by (apply (bool_decide_unpack _); vm_compute; exact I).
  exact (conj Hsrc (conj Hrep (conj Hin
           (render_context_etcd_entries etcd_configured_env None fresh
              "10.9.0.0/16" "amd64" Hsrc Hrep Hin)))).
Defined.

(** C4, as the claim states it, fails: without a descriptor the context of
    a unit whose configuration has an [etcd_dir] option holds [etcd_dir]. *)
Lemma etcd_dir_without_descriptor :
  exists context s',
    render_context etcd_configured_env None fresh = (Ok context, s')
    /\ "etcd_dir" ∈ etcd_keys
    /\ context !! "etcd_dir" = Some (VStr "/srv/etcd").
Proof.
  eexists _, _. split; [vm_compute; reflexivity|].
  split; [unfold etcd_keys; set_solver|vm_compute; reflexivity].
Qed.

(** C2, what the code does.  With the cluster probe failing, [launch_dns]
    invoked on a store on which it is eligible returns normally after the
    status, the probe, the log entry and a [remove_state] on
    [kubedns.available], which is not the name [kube-dns.available] that
    the decorator tests and the start sets; invoked on a store that holds
    [kube-dns.available], it leaves that flag set. *)
Theorem launch_dns_removes_another_flag :
  launch_dns_eligible {[ "apiserver.available" ]} = true
  /\ launch_dns probe_down_env (State {[ "apiserver.available" ]} ∅ [])
     = (Ok tt,
        State {[ "apiserver.available" ]} ∅
          [dns_status; Run probe_command;
           Log "kubectl command failed, waiting for apiserver to start.";
           RemoveState "kubedns.available"])
  /\ "kubedns.available" <> "kube-dns.available"
  /\ "kube-dns.available"
     ∈ flags (snd (launch_dns probe_down_env
                     (State {[ "apiserver.available"; "kube-dns.available" ]}
                            ∅ []))).
Proof.
  split; [vm_compute; reflexivity|].
  split; [vm_compute; reflexivity|].
  split; [discriminate|].
  apply (bool_decide_unpack _). vm_compute. exact I.
Qed.

(** * Further properties *)

(** ** Address derivation on arbitrary strings *)

Lemma str_join_split sep (s : string) :
  Py.str_join (String sep "") (Py.str_split sep s) = s.
Proof.
  induction s as [|c s IH]; [reflexivity|]. simpl Py.str_split.
  destruct (Ascii.eqb_spec c sep) as [->|Hc].
  - pose proof (str_split_nonempty sep s) as Hne.
    destruct (Py.str_split sep s) as [|h t]; [done|].
    change (Py.str_join (String sep "") ("" :: h :: t))
      with (String sep (Py.str_join (String sep "") (h :: t))).
    by rewrite IH.
  - destruct (Py.str_split sep s) as [|h t] eqn:Hs.
    + by destruct (str_split_nonempty sep s).
    + rewrite <- IH. by destruct t.
Qed.

Lemma str_split_snoc sep (p d : string) :
  occurs sep d = false ->
  Py.str_split sep (p +:+ String sep d) = Py.str_split sep p ++ [d].
Proof.
  intros Hd. induction p as [|c p IH]; simpl.
  - by rewrite Ascii.eqb_refl, str_split_free.
  - rewrite IH. destruct (Ascii.eqb c sep); [done|].
    pose proof (str_split_nonempty sep p) as Hne.
    by destruct (Py.str_split sep p).
Qed.

Lemma first_field_before_slash (x n : string) :
  occurs "/" x = false ->
  Py.first (Py.str_split "/" (x +:+ "/" +:+ n)) = x
  /\ Py.first (Py.str_split "/" x) = x.
Proof.
  intros Hx. split.
  - change (x +:+ "/" +:+ n) with (x +:+ String "/" n).
    by rewrite str_split_app.
  - by rewrite str_split_free.
Qed.

(** X1. Whatever precedes the last dot is kept as it is: for an address
    [p.d] whose last component [d] holds neither a dot nor a slash, and whose
    prefix [p] holds no slash, both derivations replace [d] only, with or
    without a mask; neither the number of components nor their content is
    checked. *)
Theorem derivation_replaces_last_component (p d n : string) :
  occurs "/" p = false -> occurs "/" d = false -> occurs "." d = false ->
  get_dns_ip (p +:+ "." +:+ d) = p +:+ ".10"
  /\ get_sdn_ip (p +:+ "." +:+ d) = p +:+ ".1"
  /\ get_dns_ip (p +:+ "." +:+ d +:+ "/" +:+ n) = p +:+ ".10"
  /\ get_sdn_ip (p +:+ "." +:+ d +:+ "/" +:+ n) = p +:+ ".1".
Proof.
  intros Hp Hd Hdot.
  assert (Hx : occurs "/" (p +:+ "." +:+ d) = false).
  { by rewrite !occurs_app, Hp, Hd. }
  assert (Hcore : Py.str_join "."
                    (Py.but_last (Py.str_split "." (p +:+ "." +:+ d))) = p).
  { change (p +:+ "." +:+ d) with (p +:+ String "." d).
    rewrite str_split_snoc by done. unfold Py.but_last.
    rewrite removelast_last. apply str_join_split. }
  destruct (first_field_before_slash _ n Hx) as [Hmask Hplain].
  unfold get_dns_ip, get_sdn_ip.
  replace (p +:+ "." +:+ d +:+ "/" +:+ n)
    with ((p +:+ "." +:+ d) +:+ "/" +:+ n) by (by rewrite !app_assoc).
  by rewrite Hmask, Hplain, Hcore.
Qed.

Lemma derivation_replaces_last_component_witness :
  occurs "/" "fd00:10.96" = false /\ occurs "/" "0" = false
  /\ occurs "." "0" = false
  /\ get_dns_ip "fd00:10.96.0" = "fd00:10.96.10"
  /\ get_sdn_ip "fd00:10.96.0" = "fd00:10.96.1"
  /\ get_dns_ip "fd00:10.96.0/112" = "fd00:10.96.10"
  /\ get_sdn_ip "fd00:10.96.0/112" = "fd00:10.96.1".
Proof.
  exact (conj eq_refl (conj eq_refl (conj eq_refl
           (derivation_replaces_last_component "fd00:10.96" "0" "112"
              eq_refl eq_refl eq_refl)))).
Defined.

(** X2. Everything from the first slash on is ignored: the derivations of
    [x/n] are those of [x], whatever [n] holds. *)
Theorem derivation_ignores_mask (x n : string) :
  occurs "/" x = false ->
  get_dns_ip (x +:+ "/" +:+ n) = get_dns_ip x
  /\ get_sdn_ip (x +:+ "/" +:+ n) = get_sdn_ip x.
Proof.
  intros Hx. destruct (first_field_before_slash _ n Hx) as [Hmask Hplain].
  unfold get_dns_ip, get_sdn_ip. by rewrite Hmask, Hplain.
Qed.

Lemma derivation_ignores_mask_witness :
  occurs "/" "10.1.2.0" = false
  /\ get_dns_ip ("10.1.2.0" +:+ "/" +:+ "not/a/mask") = get_dns_ip "10.1.2.0"
  /\ get_sdn_ip ("10.1.2.0" +:+ "/" +:+ "not/a/mask") = get_sdn_ip "10.1.2.0".
Proof.
  exact (conj eq_refl
           (derivation_ignores_mask "10.1.2.0" "not/a/mask" eq_refl)).
Defined.

(** X3. An address without a dot, the empty string included, is not
    refused: the DNS address is the bare [.10] and the gateway address the
    bare [.1]. *)
Theorem derivation_without_dot (x n : string) :
  occurs "/" x = false -> occurs "." x = false ->
  get_dns_ip x = ".10" /\ get_sdn_ip x = ".1"
  /\ get_dns_ip (x +:+ "/" +:+ n) = ".10"
  /\ get_sdn_ip (x +:+ "/" +:+ n) = ".1".
Proof.
  intros Hx Hdot. destruct (first_field_before_slash _ n Hx) as [Hmask Hplain].
  unfold get_dns_ip, get_sdn_ip.
  by rewrite Hmask, Hplain, (str_split_free _ _ Hdot).
Qed.

Lemma derivation_without_dot_witness :
  occurs "/" "" = false /\ occurs "." "" = false
  /\ get_dns_ip "" = ".10" /\ get_sdn_ip "" = ".1"
  /\ get_dns_ip ("" +:+ "/" +:+ "24") = ".10"
  /\ get_sdn_ip ("" +:+ "/" +:+ "24") = ".1".
Proof.
  exact (conj eq_refl (conj eq_refl
           (derivation_without_dot "" "24" eq_refl eq_refl))).
Defined.

(** ** Architecture detection, every outcome *)

Lemma arch_command_failed e s :
  exit_status e dpkg_command <> 0%Z ->
  arch e s
  = (Raise (CalledProcessError (exit_status e dpkg_command) dpkg_command),
     after s [Run dpkg_command]).
Proof.
  intros Hexit%Z.eqb_neq. destruct s as [fl ps tr]. unfold arch. run.
  fold dpkg_command. by rewrite Hexit.
Qed.

Lemma arch_undecodable e s :
  exit_status e dpkg_command = 0%Z ->
  Py.utf8_valid (detected e) = false ->
  arch e s = (Raise UnicodeDecodeError, after s [Run dpkg_command]).
Proof.
  intros Hexit Hutf. destruct s as [fl ps tr]. unfold arch. run.
  fold dpkg_command. rewrite Hexit. cbn [Z.eqb].
  fold (detected e). by rewrite Hutf.
Qed.

(** X4. [arch] returns exactly when the packaging command exits with
    status 0 and its trimmed output decodes to a supported name, and then
    returns that name.  The unit status is set, to blocked, exactly when the
    command exits with status 0 and the output decodes to an unsupported
    name: a failing command and an undecodable output raise
    [CalledProcessError] and [UnicodeDecodeError] with the status left as it
    was.  The command is run once in every case, and nothing else is. *)
Theorem arch_outcomes e s :
  trace (snd (arch e s))
  = trace s ++ Run dpkg_command
       :: (if blocks e
           then [StatusSet "blocked" (unsupported_message (detected e))]
           else [])
  /\ flags (snd (arch e s)) = flags s
  /\ paths (snd (arch e s)) = paths s
  /\ fst (arch e s)
     = (if detects e then Ok (detected e)
        else if blocks e
             then Raise (Exception (unsupported_message (detected e)))
        else if (exit_status e dpkg_command =? 0)%Z
             then Raise UnicodeDecodeError
        else Raise (CalledProcessError (exit_status e dpkg_command)
                                       dpkg_command)).
Proof.
  unfold blocks, detects.
  destruct (exit_status e dpkg_command =? 0)%Z eqn:Hexit.
  - apply Z.eqb_eq in Hexit.
    destruct (Py.utf8_valid (detected e)) eqn:Hutf.
    + destruct (decide (detected e ∈ supported_architectures)) as [Hin|Hin].
      * rewrite (arch_supported _ _ Hexit Hutf Hin).
        by rewrite (bool_decide_eq_true_2 _ Hin).
      * rewrite (arch_unsupported _ _ Hexit Hutf Hin).
        by rewrite (bool_decide_eq_false_2 _ Hin).
    + by rewrite (arch_undecodable _ _ Hexit Hutf).
  - apply Z.eqb_neq in Hexit. by rewrite (arch_command_failed _ _ Hexit).
Qed.

Lemma rstrip_spaces (w : string) : all_space w = true -> Py.rstrip w = "".
Proof.
  induction w as [|c w IH]; simpl; [done|].
  intros [Hc Hw]%andb_prop. by rewrite (IH Hw), Hc.
Qed.

Lemma rstrip_app_spaces (a w : string) :
  all_space w = true -> Py.rstrip (a +:+ w) = Py.rstrip a.
Proof.
  intros Hw. induction a as [|c a IH].
  - change ("" +:+ w) with w. by rewrite (rstrip_spaces _ Hw).
  - rewrite app_cons. simpl. by rewrite IH.
Qed.

(** X5. Trailing whitespace of any kind and length does not matter: when
    the packaging command exits with status 0 and prints a supported name
    followed by whitespace only, [arch] returns that name. *)
Theorem arch_ignores_trailing_whitespace e s a w :
  a ∈ supported_architectures -> all_space w = true ->
  exit_status e dpkg_command = 0%Z ->
  stdout e dpkg_command = a +:+ w ->
  arch e s = (Ok a, after s [Run dpkg_command]).
Proof.
  intros Ha Hw Hexit Hout.
  assert (Hdet : detected e = a).
  { unfold detected. rewrite Hout, (rstrip_app_spaces _ _ Hw).
    unfold supported_architectures in Ha.
    repeat (apply elem_of_cons in Ha as [->|Ha]);
      [reflexivity..|by apply elem_of_nil in Ha]. }
  assert (Hutf : Py.utf8_valid a = true).
  { unfold supported_architectures in Ha.
    repeat (apply elem_of_cons in Ha as [->|Ha]);
      [reflexivity..|by apply elem_of_nil in Ha]. }
  rewrite <- Hdet in Hutf, Ha. rewrite <- Hdet at 1.
  by apply arch_supported.
Qed.

Lemma arch_ignores_trailing_whitespace_witness :
  "arm64" ∈ supported_architectures
  /\ all_space (" " +:+ newline +:+ newline) = true
  /\ exit_status padded_env dpkg_command = 0%Z
  /\ stdout padded_env dpkg_command = "arm64" +:+ " " +:+ newline +:+ newline
  /\ arch padded_env fresh = (Ok "arm64", after fresh [Run dpkg_command]).
Proof.
  assert (Hin : "arm64" ∈ supported_architectures)
    by (apply (bool_decide_unpack _); vm_compute; exact I).
  exact (conj Hin (conj eq_refl (conj eq_refl (conj eq_refl
           (arch_ignores_trailing_whitespace padded_env fresh "arm64"
              (" " +:+ newline +:+ newline) Hin eq_refl eq_refl eq_refl))))).
Defined.

(** ** render_files, every outcome *)

Global Instance same_paths_preorder : PreOrder same_paths.
Proof.
  split; [by intros s|]. intros s1 s2 s3. unfold same_paths. congruence.
Qed.

Lemma emit_same_paths ev : respects same_paths (emit ev).
Proof. by intros s. Qed.

Lemma render_files_run e reldata s cidr :
  dns_source e = VStr cidr ->
  render_files e reldata s
  = bind (bind (arch e) (fun a => ret (full_context e reldata cidr a)))
         (fun context =>
            render_service "kube-apiserver" context ;;;
            render_service "kube-controller-manager" context ;;;
            render_service "kube-scheduler" context ;;;
            render_service "kube-dns" context)
         (prepared e reldata s).
Proof.
  intros Hsrc. unfold render_files. unfold bind at 1.
  rewrite (render_context_run _ _ _ _ Hsrc). reflexivity.
Qed.

Lemma render_files_paths e reldata s :
  paths (snd (render_files e reldata s)) = paths s
  \/ paths (snd (render_files e reldata s))
     = {[kube_directory e; manifest_directory e]} ∪ paths s.
Proof.
  destruct (dns_source e) as [| | |cidr|] eqn:Hsrc.
  4:{ right. rewrite (render_files_run _ _ _ _ Hsrc).
      assert (Hk : respects same_paths
                (bind (bind (arch e)
                         (fun a => ret (full_context e reldata cidr a)))
                      (fun context =>
                         render_service "kube-apiserver" context ;;;
                         render_service "kube-controller-manager" context ;;;
                         render_service "kube-scheduler" context ;;;
                         render_service "kube-dns" context))).
      { pose proof (arch_effects e same_paths
                      (fun ev _ => emit_same_paths ev)).
        pose proof (render_service_effects same_paths
                      (fun ev _ => emit_same_paths ev)).
        effects. }
      by rewrite (Hk (prepared e reldata s)). }
  all: left; by rewrite render_files_without_source
                  by (intros ?; by rewrite Hsrc).
Qed.

(** X6. Whatever the surroundings and however it ends, [render_files]
    leaves every charm state as it is, creates no path but the two working
    directories, and has no effects but saving the credentials, creating
    directories, running the packaging command, setting the status and
    rendering: it starts no service and runs no cluster command. *)
Theorem render_files_footprint e reldata s :
  flags (snd (render_files e reldata s)) = flags s
  /\ (paths (snd (render_files e reldata s)) = paths s
      \/ paths (snd (render_files e reldata s))
         = {[kube_directory e; manifest_directory e]} ∪ paths s)
  /\ exists t, trace (snd (render_files e reldata s)) = trace s ++ t
               /\ Forall render_effect t.
Proof.
  split; [apply render_files_same_flags|].
  split; [apply render_files_paths|apply render_files_grows].
Qed.

(** X7. Without a truthy subnet fact and without a [cidr] option there is
    nothing to derive the DNS address from: [render_files] raises
    [AttributeError] before it has any effect, and [start_master] raises it
    after its first status message, having started no service. *)
Theorem render_files_without_cidr e reldata etcd s :
  truthy (dict_get (kv e) "sdn_subnet") = false ->
  config e !! "cidr" = None ->
  render_files e reldata s = (Raise AttributeError, s)
  /\ start_master e etcd s
     = (Raise AttributeError,
        after s [StatusSet "maintenance"
                   "Rendering the Kubernetes master systemd files."]).
Proof.
  intros Hsub Hcidr.
  assert (Hsrc : forall cidr, dns_source e <> VStr cidr).
  { intros cidr. unfold dns_source. rewrite Hsub. unfold dict_get.
    by rewrite Hcidr. }
  split; [by apply render_files_without_source|].
  unfold start_master, status_set.
  erewrite bind_ok by (destruct s; reflexivity).
  by rewrite (bind_raise _ _ _ _ _ (render_files_without_source _ _ _ Hsrc)).
Qed.

Lemma render_files_without_cidr_witness :
  truthy (dict_get (kv no_cidr_env) "sdn_subnet") = false
  /\ config no_cidr_env !! "cidr" = None
  /\ render_files no_cidr_env None fresh = (Raise AttributeError, fresh)
  /\ start_master no_cidr_env sample_etcd fresh
     = (Raise AttributeError,
        after fresh [StatusSet "maintenance"
                       "Rendering the Kubernetes master systemd files."]).
Proof.
  exact (conj eq_refl (conj eq_refl
           (render_files_without_cidr no_cidr_env None sample_etcd fresh
              eq_refl eq_refl))).
Defined.

Lemma ensure_events_present p (present : gset string) :
  p ∈ present -> ensure_events p present = [].
Proof. intros Hp. unfold ensure_events. by rewrite bool_decide_eq_true_2. Qed.

(** X8. Rendering again changes nothing but the files: on the state a
    successful [render_files] leaves, a second [render_files] creates no
    directory, saves the credentials and detects the architecture again, and
    renders the same eight files against the same context. *)
Theorem render_files_again e reldata s cidr a :
  dns_source e = VStr cidr -> reports e a -> a ∈ supported_architectures ->
  let s1 := snd (render_files e reldata s) in
  let files := flat_map (service_renders (full_context e reldata cidr a))
                        rendered_services in
  trace s1
  = trace s ++ credential_events reldata
            ++ ensure_events (kube_directory e) (paths s)
            ++ ensure_events (manifest_directory e) (paths s)
            ++ [Run dpkg_command] ++ files
  /\ render_files e reldata s1
     = (Ok tt,
        State (flags s1) (paths s1)
              (trace s1 ++ credential_events reldata
                        ++ [Run dpkg_command] ++ files)).
Proof.
  intros Hsrc Hrep Hin s1 files. subst s1.
  rewrite (render_files_ok _ _ _ _ _ Hsrc Hrep Hin).
  cbn [snd]. split.
  - unfold after, prepared. cbn [trace]. by rewrite <- !List.app_assoc.
  - rewrite (render_files_ok _ _ _ _ _ Hsrc Hrep Hin).
    unfold after, prepared. cbn [flags paths trace].
    rewrite !(ensure_events_present _
                ({[kube_directory e; manifest_directory e]} ∪ paths s))
      by set_solver.
    f_equal. f_equal; [set_solver|].
    by rewrite <- !List.app_assoc.
Qed.

Lemma render_files_again_witness :
  dns_source sample_env = VStr "10.1.2.0/24"
  /\ reports sample_env "amd64"
  /\ "amd64" ∈ supported_architectures
  /\ render_files sample_env None (snd (render_files sample_env None fresh))
     = (Ok tt,
        State (flags (snd (render_files sample_env None fresh)))
              (paths (snd (render_files sample_env None fresh)))
              (trace (snd (render_files sample_env None fresh))
               ++ credential_events None ++ [Run dpkg_command]
               ++ flat_map
                    (service_renders
                       (full_context sample_env None "10.1.2.0/24" "amd64"))
                    rendered_services)).
Proof.
  assert (Hsrc : dns_source sample_env = VStr "10.1.2.0/24")
    by (vm_compute; reflexivity).
  assert (Hrep : reports sample_env "amd64")
    by (vm_compute; repeat split; reflexivity).
  assert (Hin : "amd64" ∈ supported_architectures)
    by (apply (bool_decide_unpack _); vm_compute; exact I).
  exact (conj Hsrc (conj Hrep (conj Hin
           (proj2 (render_files_again sample_env None fresh "10.1.2.0/24"
                     "amd64" Hsrc Hrep Hin))))).
Defined.

(** ** Which entry wins in the context *)

Lemma node_entries_outside e a k :
  k ∉ node_keys -> node_entries e a !! k = None.
Proof.
  unfold node_keys, node_entries. intros Hk.
  repeat (apply not_elem_of_cons in Hk as [? Hk]).
  by rewrite !lookup_insert_ne, lookup_singleton_ne.
Qed.

Lemma etcd_entries_outside rel k :
  k ∉ etcd_keys -> etcd_entries rel !! k = None.
Proof.
  unfold etcd_keys, etcd_entries. intros Hk.
  repeat (apply not_elem_of_cons in Hk as [? Hk]).
  by rewrite !lookup_insert_ne, lookup_singleton_ne.
Qed.

Lemma full_context_node e reldata cidr a k :
  k ∈ node_keys ->
  full_context e reldata cidr a !! k = node_entries e a !! k.
Proof.
  intros Hk. unfold full_context, dict_update. apply lookup_union_l'.
  unfold node_keys in Hk.
  repeat (apply elem_of_cons in Hk as [->|Hk]);
    [by eexists..|by apply elem_of_nil in Hk].
Qed.

(** X9. The entries [render_files] sets last always win: whenever the
    context is built, it maps [arch] to the detected architecture, both
    [master_address] and [private_address] to the unit's private address,
    [public_address] to its public address and [manifest_directory] to the
    manifests directory, also when the unit configuration or the descriptor
    has entries of these names. *)
Theorem render_context_node_entries e reldata s cidr a :
  dns_source e = VStr cidr -> reports e a -> a ∈ supported_architectures ->
  exists context,
    fst (render_context e reldata s) = Ok context
    /\ context !! "arch" = Some (VStr a)
    /\ context !! "master_address" = Some (unit_get e "private-address")
    /\ context !! "private_address" = Some (unit_get e "private-address")
    /\ context !! "public_address" = Some (unit_get e "public-address")
    /\ context !! "manifest_directory" = Some (VStr (manifest_directory e)).
Proof.
  intros Hsrc Hrep Hin. exists (full_context e reldata cidr a).
  rewrite (render_context_ok _ _ _ _ _ Hsrc Hrep Hin).
  split; [done|].
  rewrite !full_context_node by (unfold node_keys; set_solver).
  by repeat split.
Qed.

Lemma render_context_node_entries_witness :
  dns_source shadowing_env = VStr "10.1.2.0/24"
  /\ reports shadowing_env "amd64"
  /\ "amd64" ∈ supported_architectures
  /\ config shadowing_env !! "arch" = Some (VStr "s390x")
  /\ exists context,
       fst (render_context shadowing_env None fresh) = Ok context
       /\ context !! "arch" = Some (VStr "amd64")
       /\ context !! "master_address"
          = Some (unit_get shadowing_env "private-address")
       /\ context !! "private_address"
          = Some (unit_get shadowing_env "private-address")
       /\ context !! "public_address"
          = Some (unit_get shadowing_env "public-address")
       /\ context !! "manifest_directory"
          = Some (VStr (manifest_directory shadowing_env)).
Proof.
  assert (Hsrc : dns_source shadowing_env = VStr "10.1.2.0/24")
    by (vm_compute; reflexivity).
  assert (Hrep : reports shadowing_env "amd64")
    by (vm_compute; repeat split; reflexivity).
  assert (Hin : "amd64" ∈ supported_architectures)
    by (apply (bool_decide_unpack _); vm_compute; exact I).
  assert (Hcfg : config shadowing_env !! "arch" = Some (VStr "s390x"))
    by (vm_compute; reflexivity).
  exact (conj Hsrc (conj Hrep (conj Hin (conj Hcfg
           (render_context_node_entries shadowing_env None fresh
              "10.1.2.0/24" "amd64" Hsrc Hrep Hin))))).
Defined.

(** X10. The unit configuration reaches the templates: whenever the context
    is built, every configuration option is in the context with its own
    value, unless its name is one of the five entries set last or, with a
    truthy descriptor, one of the five etcd entries.  This includes an
    option named [pillar], which then replaces the network parameters; the
    network parameters are in the context when there is no such option. *)
Theorem render_context_passes_config e reldata s cidr a :
  dns_source e = VStr cidr -> reports e a -> a ∈ supported_architectures ->
  exists context,
    fst (render_context e reldata s) = Ok context
    /\ (forall k v,
          config e !! k = Some v -> k ∉ node_keys ->
          descriptor reldata = None \/ k ∉ etcd_keys ->
          context !! k = Some v)
    /\ (config e !! "pillar" = None ->
        context !! "pillar" = Some (VDict (pillar_of e cidr))).
Proof.
  intros Hsrc Hrep Hin. exists (full_context e reldata cidr a).
  rewrite (render_context_ok _ _ _ _ _ Hsrc Hrep Hin).
  split; [done|]. unfold full_context, dict_update. split.
  - intros k v Hcfg Hnode Hetcd.
    rewrite lookup_union_r by by apply node_entries_outside.
    destruct (descriptor reldata) as [rel|].
    + destruct Hetcd as [|Hetcd]; [done|].
      rewrite lookup_union_r by by apply etcd_entries_outside.
      by apply lookup_union_Some_l.
    + by apply lookup_union_Some_l.
  - intros Hcfg.
    rewrite lookup_union_r by (apply node_entries_outside;
                               unfold node_keys; set_solver).
    assert (Hbase : (config e ∪ {[ "pillar" := VDict (pillar_of e cidr) ]})
                      !! "pillar" = Some (VDict (pillar_of e cidr))).
    { rewrite lookup_union_r by done. apply lookup_singleton_eq. }
    destruct (descriptor reldata) as [rel|]; [|done].
    rewrite lookup_union_r; [done|].
    apply etcd_entries_outside. unfold etcd_keys. set_solver.
Qed.

Lemma render_context_passes_config_witness :
  dns_source shadowing_env = VStr "10.1.2.0/24"
  /\ reports shadowing_env "amd64"
  /\ "amd64" ∈ supported_architectures
  /\ exists context,
       fst (render_context shadowing_env (Some sample_etcd) fresh)
       = Ok context
       /\ context !! "pillar" = Some (VStr "salt")
       /\ context !! "dns_domain" = Some (VStr "cluster.local").
Proof.
  assert (Hsrc : dns_source shadowing_env = VStr "10.1.2.0/24")
    by (vm_compute; reflexivity).
  assert (Hrep : reports shadowing_env "amd64")
    by (vm_compute; repeat split; reflexivity).
  assert (Hin : "amd64" ∈ supported_architectures)
    by (apply (bool_decide_unpack _); vm_compute; exact I).
  destruct (render_context_passes_config shadowing_env (Some sample_etcd)
              fresh "10.1.2.0/24" "amd64" Hsrc Hrep Hin)
    as (context & Hctx & Hpass & _).
  refine (conj Hsrc (conj Hrep (conj Hin
            (ex_intro _ context (conj Hctx (conj _ _)))))).
  - apply Hpass; [vm_compute; reflexivity| |right].
    + apply (bool_decide_unpack _). vm_compute. exact I.
    + apply (bool_decide_unpack _). vm_compute. exact I.
  - apply Hpass; [vm_compute; reflexivity| |right].
    + apply (bool_decide_unpack _). vm_compute. exact I.
    + apply (bool_decide_unpack _). vm_compute. exact I.
Defined.

(** ** render_service on any name *)

Lemma format_service (name : string) :
  str_format "{0}.service" [name] = Ok (name +:+ ".service").
Proof. reflexivity. Qed.

Lemma format_defaults (name : string) :
  str_format "{0}.defaults" [name] = Ok (name +:+ ".defaults").
Proof. reflexivity. Qed.

Lemma format_conf_directory (name : string) :
  str_format "/etc/defaults/{0}" [name] = Ok ("/etc/defaults/" +:+ name).
Proof. vm_compute str_format. by rewrite app_nil_r. Qed.

Lemma no_slash_no_leading_sep (name : string) :
  occurs "/" name = false -> Py.starts_with_sep name = false.
Proof. destruct name as [|c name]; simpl; [done|]. by intros [? _]%orb_false_elim. Qed.

Lemma no_slash_no_trailing_sep (name : string) :
  occurs "/" name = false -> Py.ends_with_sep name = false.
Proof.
  induction name as [|c name IH]; simpl; [done|].
  intros [Hc Hname]%orb_false_elim. destruct name; [done|by apply IH].
Qed.

Lemma ends_with_sep_app (x y : string) :
  y <> "" -> Py.ends_with_sep (x +:+ y) = Py.ends_with_sep y.
Proof.
  intros Hy. induction x as [|c x IH]; [done|].
  rewrite app_cons. simpl. rewrite IH.
  destruct (x +:+ y) eqn:Hxy; [|done].
  destruct x; [|done]. by destruct Hy.
Qed.

(** X11. For every non-empty service name without a slash, not only the
    four of the layer, [render_service] returns normally after rendering
    [<name>.service] to [/etc/systemd/system/<name>] and then
    [<name>.defaults] to [/etc/defaults/<name>/<name>], both against the
    context it is given. *)
Theorem render_service_targets (name : string) context s :
  name <> "" -> occurs "/" name = false ->
  render_service name context s
  = (Ok tt,
     after s [Render (name +:+ ".service")
                     ("/etc/systemd/system/" +:+ name) context;
              Render (name +:+ ".defaults")
                     ("/etc/defaults/" +:+ name +:+ "/" +:+ name) context]).
Proof.
  intros Hne Hslash. destruct s as [fl ps tr]. unfold render_service. run.
  rewrite format_service, format_conf_directory, format_defaults.
  unfold Py.path_join.
  rewrite (no_slash_no_leading_sep _ Hslash).
  rewrite (ends_with_sep_app _ _ Hne), (no_slash_no_trailing_sep _ Hslash).
  cbn [orb]. rewrite <- List.app_assoc. rewrite app_assoc. reflexivity.
Qed.

Lemma render_service_targets_witness :
  "etcd" <> "" /\ occurs "/" "etcd" = false
  /\ render_service "etcd" ∅ fresh
     = (Ok tt,
        after fresh [Render ("etcd" +:+ ".service")
                            ("/etc/systemd/system/" +:+ "etcd") ∅;
                     Render ("etcd" +:+ ".defaults")
                            ("/etc/defaults/" +:+ "etcd" +:+ "/" +:+ "etcd")
                            ∅]).
Proof.
  assert (Hne : "etcd" <> "") by discriminate.
  exact (conj Hne (conj eq_refl
           (render_service_targets "etcd" ∅ fresh Hne eq_refl))).
Defined.

(** X12. A service name that starts with a slash takes the place of both
    directories: the unit file and the defaults file are rendered to the
    name itself, the second over the first. *)
Theorem render_service_absolute_name (rest : string) context s :
  let name := String "/" rest in
  render_service name context s
  = (Ok tt,
     after s [Render (name +:+ ".service") name context;
              Render (name +:+ ".defaults") name context]).
Proof.
  intros name. destruct s as [fl ps tr]. unfold render_service. run.
  rewrite format_service, format_conf_directory, format_defaults.
  by rewrite <- List.app_assoc.
Qed.

(** ** start_master, every outcome *)

Lemma commands_app (t u : list event) :
  commands (t ++ u) = commands t ++ commands u.
Proof. unfold commands. apply flat_map_app. Qed.

Lemma commands_start_events e service :
  commands (start_events e service) = [start_command service].
Proof. unfold start_events. by destruct (started e service). Qed.

Lemma commands_start_loop e services :
  commands (flat_map (start_events e) services)
  = start_command <$> services.
Proof.
  induction services as [|service services IH]; [done|].
  cbn [flat_map]. by rewrite commands_app, commands_start_events, IH.
Qed.

Lemma start_master_after_render e etcd s s1 :
  render_files e (Some etcd)
    (after s [StatusSet "maintenance"
                "Rendering the Kubernetes master systemd files."])
  = (Ok tt, s1) ->
  start_master e etcd s
  = (Ok tt,
     State (start_flags e services_to_start ∪ flags s1) (paths s1)
           ((trace s1 ++ [StatusSet "maintenance"
                            "Starting the Kubernetes master services."])
            ++ flat_map (start_events e) services_to_start)).
Proof.
  intros Hrender. unfold start_master, status_set.
  erewrite bind_ok by (destruct s; reflexivity).
  rewrite (bind_ok _ _ _ _ _ Hrender).
  erewrite bind_ok by reflexivity.
  apply start_loop.
Qed.

Lemma start_master_render_raises e etcd s x s1 :
  render_files e (Some etcd)
    (after s [StatusSet "maintenance"
                "Rendering the Kubernetes master systemd files."])
  = (Raise x, s1) ->
  start_master e etcd s = (Raise x, s1).
Proof.
  intros Hrender. unfold start_master, status_set.
  erewrite bind_ok by (destruct s; reflexivity).
  by rewrite (bind_raise _ _ _ _ _ Hrender).
Qed.

(** X13. When the render step of [start_master] raises, the handler raises
    the same exception in the state the render left: no charm state has
    changed and no service has been started, not even attempted. *)
Theorem start_master_stops_at_render_failure e etcd s x s1 :
  render_files e (Some etcd)
    (after s [StatusSet "maintenance"
                "Rendering the Kubernetes master systemd files."])
  = (Raise x, s1) ->
  start_master e etcd s = (Raise x, s1)
  /\ flags s1 = flags s
  /\ exists t, trace s1 = trace s ++ t
               /\ forall service, Run (start_command service) ∉ t.
Proof.
  intros Hrender. split; [by apply start_master_render_raises|].
  pose proof (render_files_same_flags e (Some etcd)
                (after s [StatusSet "maintenance"
                  "Rendering the Kubernetes master systemd files."])) as Hfl.
  destruct (render_files_grows e (Some etcd)
                (after s [StatusSet "maintenance"
                  "Rendering the Kubernetes master systemd files."]))
    as (t & Ht & Heff).
  rewrite Hrender in Hfl, Ht. cbn [snd flags trace after] in Hfl, Ht.
  split; [done|].
  exists ([StatusSet "maintenance"
             "Rendering the Kubernetes master systemd files."] ++ t).
  split; [by rewrite Ht, <- List.app_assoc|].
  intros service [Hin|Hin]%elem_of_app; [set_solver|].
  rewrite Forall_forall in Heff. specialize (Heff _ Hin).
  inversion Heff.
Qed.

Lemma start_master_stops_at_render_failure_witness :
  let s0 := after fresh
              [StatusSet "maintenance"
                 "Rendering the Kubernetes master systemd files."] in
  let s1 := snd (render_files mips_env (Some sample_etcd) s0) in
  render_files mips_env (Some sample_etcd) s0
  = (Raise (Exception "Unsupported machine architecture: mips"), s1)
  /\ start_master mips_env sample_etcd fresh
     = (Raise (Exception "Unsupported machine architecture: mips"), s1)
  /\ flags s1 = flags fresh
  /\ exists t, trace s1 = trace fresh ++ t
               /\ forall service, Run (start_command service) ∉ t.
Proof.
  intros s0 s1.
  assert (H : render_files mips_env (Some sample_etcd) s0
              = (Raise (Exception "Unsupported machine architecture: mips"),
                 s1)) by (vm_compute; reflexivity).
  exact (conj H (start_master_stops_at_render_failure mips_env sample_etcd
                   fresh _ s1 H)).
Defined.

(** X14. Once the render step has returned, [start_master] runs the three
    start commands, kube-apiserver first, kube-controller-manager second,
    kube-scheduler third, each exactly once and whether or not an earlier
    one failed; it runs no other command and creates no path. *)
Theorem start_master_attempts_every_service e etcd s s1 :
  render_files e (Some etcd)
    (after s [StatusSet "maintenance"
                "Rendering the Kubernetes master systemd files."])
  = (Ok tt, s1) ->
  exists s' t,
    start_master e etcd s = (Ok tt, s')
    /\ trace s' = trace s1 ++ t
    /\ commands t = ["systemctl start kube-apiserver";
                     "systemctl start kube-controller-manager";
                     "systemctl start kube-scheduler"]
    /\ paths s' = paths s1.
Proof.
  intros Hrender. rewrite (start_master_after_render _ _ _ _ Hrender).
  eexists _, _. split; [reflexivity|]. cbn [trace paths].
  split; [by rewrite <- List.app_assoc|]. split; [|done].
  by rewrite commands_app, commands_start_loop.
Qed.

Lemma start_master_attempts_every_service_witness :
  let s0 := after fresh
              [StatusSet "maintenance"
                 "Rendering the Kubernetes master systemd files."] in
  let s1 := snd (render_files all_down_env (Some sample_etcd) s0) in
  render_files all_down_env (Some sample_etcd) s0 = (Ok tt, s1)
  /\ exists s' t,
       start_master all_down_env sample_etcd fresh = (Ok tt, s')
       /\ trace s' = trace s1 ++ t
       /\ commands t = ["systemctl start kube-apiserver";
                        "systemctl start kube-controller-manager";
                        "systemctl start kube-scheduler"]
       /\ paths s' = paths s1.
Proof.
  intros s0 s1.
  assert (H : render_files all_down_env (Some sample_etcd) s0 = (Ok tt, s1))
    by (vm_compute; reflexivity).
  exact (conj H (start_master_attempts_every_service all_down_env sample_etcd
                   fresh s1 H)).
Defined.

Lemma start_flags_among e services flag :
  flag ∈ start_flags e services ->
  exists service, service ∈ services /\ flag = available service.
Proof.
  unfold start_flags. rewrite elem_of_list_to_set, list_elem_of_fmap.
  intros (service & -> & [_ Hin]%list_elem_of_filter). by exists service.
Qed.

Lemma start_flags_master e : start_flags e services_to_start ⊆ master_flags.
Proof.
  intros flag (service & Hin & ->)%start_flags_among.
  unfold services_to_start in Hin. unfold master_flags.
  repeat (apply elem_of_cons in Hin as [->|Hin]);
    [| | |by apply elem_of_nil in Hin];
    vm_compute available; set_solver.
Qed.

(** X15. However [start_master] ends, it has removed no charm state and
    set none but [kube-apiserver.available],
    [kube-controller-manager.available] and [kube-scheduler.available].
    Neither [apiserver.available] nor [kube-dns.available] is among them, so
    whether [launch_dns] is eligible is the same before and after. *)
Theorem start_master_flag_footprint e etcd s :
  flags s ⊆ flags (snd (start_master e etcd s))
  /\ flags (snd (start_master e etcd s)) ⊆ flags s ∪ master_flags
  /\ launch_dns_eligible (flags (snd (start_master e etcd s)))
     = launch_dns_eligible (flags s).
Proof.
  assert (Hadds : adds_flags master_flags s (snd (start_master e etcd s))).
  { pose proof (render_files_same_flags e (Some etcd)
                  (after s [StatusSet "maintenance"
                    "Rendering the Kubernetes master systemd files."]))
      as Hfl.
    destruct (render_files e (Some etcd)
                (after s [StatusSet "maintenance"
                  "Rendering the Kubernetes master systemd files."]))
      as [[[]|x] s1] eqn:Hrender; cbn [snd flags after] in Hfl.
    - rewrite (start_master_after_render _ _ _ _ Hrender).
      unfold adds_flags. cbn [snd flags]. rewrite Hfl.
      pose proof (start_flags_master e). split; set_solver.
    - rewrite (start_master_render_raises _ _ _ _ _ Hrender).
      unfold adds_flags. cbn [snd]. rewrite Hfl. split; set_solver. }
  destruct Hadds as [Hsub Hsup]. split; [done|]. split; [done|].
  unfold launch_dns_eligible. f_equal; apply bool_decide_ext.
  - split; [|by apply Hsub]. intros Hin. apply Hsup in Hin.
    unfold master_flags in Hin. set_solver.
  - split; intros Hout Hin; apply Hout; [by apply Hsub|].
    apply Hsup in Hin. unfold master_flags in Hin. set_solver.
Qed.

(** ** launch_dns, every outcome *)

Global Instance adds_flags_preorder added : PreOrder (adds_flags added).
Proof.
  split; [intros s; split; set_solver|].
  intros s1 s2 s3 [H1 H2] [H3 H4]. split; set_solver.
Qed.

Lemma same_flags_adds added {A} (m : M A) :
  respects same_flags m -> respects (adds_flags added) m.
Proof. intros Hm s. specialize (Hm s). unfold same_flags in Hm.
       unfold adds_flags. rewrite Hm. split; set_solver. Qed.

Lemma dns_addon_flags e :
  respects (adds_flags {[ "kube-dns.available" ]}) (dns_addon e).
Proof.
  unfold dns_addon. apply respects_bind; [apply _| |intros _].
  - apply same_flags_adds. intros s. apply render_files_same_flags.
  - apply respects_bind; [apply _| |intros [|]].
    + intros s. rewrite start_service_run. split; set_solver.
    + intros s. split; cbn [snd set_state flags]; set_solver.
    + apply respects_ret. apply _.
Qed.

Lemma launch_dns_flags e s :
  adds_flags {[ "kube-dns.available" ]}
    (State (flags s ∖ {[ "kubedns.available" ]}) (paths s) (trace s))
    (snd (launch_dns e s))
  \/ adds_flags {[ "kube-dns.available" ]} s (snd (launch_dns e s)).
Proof.
  destruct (decide (exit_status e probe_command = 0%Z)) as [Hprobe|Hprobe].
  - right.
    destruct (decide (exit_status e namespace_check_command = 0%Z))
      as [Hcheck|Hcheck].
    + rewrite (launch_dns_namespace_present _ _ Hprobe Hcheck).
      destruct (dns_addon_flags e
                  (after s [dns_status; Run probe_command;
                            Run namespace_check_command])) as [H1 H2].
      split; [exact H1|exact H2].
    + rewrite (launch_dns_namespace_absent _ _ Hprobe Hcheck).
      unfold bind. rewrite check_call_run.
      destruct (exit_status e namespace_create_command =? 0)%Z.
      * destruct (dns_addon_flags e
                    (after (after s [dns_status; Run probe_command;
                                     Run namespace_check_command])
                           [Run namespace_create_command])) as [H1 H2].
        split; [exact H1|exact H2].
      * split; cbn [snd flags after]; set_solver.
  - left. rewrite (launch_dns_probe_failed _ _ Hprobe).
    split; cbn [snd flags]; set_solver.
Qed.

(** X16. However [launch_dns] ends, the only charm state it can have
    removed is [kubedns.available] and the only one it can have set is
    [kube-dns.available]; the states [start_master] waits for are untouched,
    so whether [start_master] is eligible is the same before and after. *)
Theorem launch_dns_flag_footprint e s :
  flags s ∖ {[ "kubedns.available" ]} ⊆ flags (snd (launch_dns e s))
  /\ flags (snd (launch_dns e s)) ⊆ flags s ∪ {[ "kube-dns.available" ]}
  /\ start_master_eligible (flags (snd (launch_dns e s)))
     = start_master_eligible (flags s).
Proof.
  assert (Hsub : flags s ∖ {[ "kubedns.available" ]}
                 ⊆ flags (snd (launch_dns e s))).
  { destruct (launch_dns_flags e s) as [[H _]|[H _]];
      cbn [flags] in H; set_solver. }
  assert (Hsup : flags (snd (launch_dns e s))
                 ⊆ flags s ∪ {[ "kube-dns.available" ]}).
  { destruct (launch_dns_flags e s) as [[_ H]|[_ H]];
      cbn [flags] in H; set_solver. }
  split; [done|]. split; [done|].
  unfold start_master_eligible. f_equal; apply bool_decide_ext; set_solver.
Qed.

Lemma commands_ensure_events p present :
  commands (ensure_events p present) = [].
Proof. unfold ensure_events. by case_bool_decide. Qed.

Lemma commands_service_renders context :
  commands (flat_map (service_renders context) rendered_services) = [].
Proof. reflexivity. Qed.

Lemma dns_addon_ok e s cidr a :
  dns_source e = VStr cidr -> reports e a -> a ∈ supported_architectures ->
  exists s' t,
    dns_addon e s = (Ok tt, s')
    /\ flags s'
       = (if started e "kube-dns"
          then {[ "kube-dns.available" ]} ∪ flags s else flags s)
    /\ trace s' = trace s ++ t
    /\ commands t = [dpkg_command; "systemctl start kube-dns"].
Proof.
  intros Hsrc Hrep Hin. unfold dns_addon.
  rewrite (bind_ok _ _ _ _ _ (render_files_ok _ None _ _ _ Hsrc Hrep Hin)).
  rewrite (bind_ok _ _ _ _ _ (start_service_run _ _ _)).
  destruct (started e "kube-dns").
  - eexists _, (ensure_events (kube_directory e) (paths s)
                ++ ensure_events (manifest_directory e) (paths s)
                ++ [Run dpkg_command]
                ++ flat_map (service_renders (full_context e None cidr a))
                            rendered_services
                ++ [Print (start_command "kube-dns");
                    Run (start_command "kube-dns");
                    SetState "kube-dns.available"]).
    split; [reflexivity|]. cbn [flags trace after prepared set_state snd].
    split; [done|]. split.
    + unfold credential_events. cbn [descriptor].
      by rewrite <- !List.app_assoc.
    + by rewrite !commands_app, !commands_ensure_events,
        commands_service_renders.
  - eexists _, (ensure_events (kube_directory e) (paths s)
                ++ ensure_events (manifest_directory e) (paths s)
                ++ [Run dpkg_command]
                ++ flat_map (service_renders (full_context e None cidr a))
                            rendered_services
                ++ [Print (start_command "kube-dns");
                    Run (start_command "kube-dns")]).
    split; [reflexivity|]. cbn [flags trace after prepared ret snd].
    split; [done|]. split.
    + unfold credential_events. cbn [descriptor].
      by rewrite <- !List.app_assoc.
    + by rewrite !commands_app, !commands_ensure_events,
        commands_service_renders.
Qed.

(** X17. When the cluster probe succeeds, the namespace is there or can be
    created, and the context can be built, [launch_dns] returns normally.
    It has run, in this order, the probe, the namespace check, the
    namespace creation if the check failed, the packaging command of the
    render and the start of kube-dns, and nothing else.  It holds
    [kube-dns.available] afterwards exactly when it held it before or the
    start exited with status 0, and after a successful start it is no
    longer eligible. *)
Theorem launch_dns_starts_dns e s cidr a :
  exit_status e probe_command = 0%Z ->
  exit_status e namespace_check_command = 0%Z
  \/ exit_status e namespace_create_command = 0%Z ->
  dns_source e = VStr cidr -> reports e a -> a ∈ supported_architectures ->
  exists s' t,
    launch_dns e s = (Ok tt, s')
    /\ trace s' = trace s ++ t
    /\ commands t
       = [probe_command; namespace_check_command]
         ++ (if (exit_status e namespace_check_command =? 0)%Z then []
             else [namespace_create_command])
         ++ [dpkg_command; "systemctl start kube-dns"]
    /\ ("kube-dns.available" ∈ flags s'
        <-> "kube-dns.available" ∈ flags s
            \/ exit_status e "systemctl start kube-dns" = 0%Z)
    /\ (exit_status e "systemctl start kube-dns" = 0%Z ->
        launch_dns_eligible (flags s') = false).
Proof.
  intros Hprobe Hns Hsrc Hrep Hin.
  assert (Hflags : forall s0 s',
            flags s0 = flags s ->
            flags s' = (if started e "kube-dns"
                        then {[ "kube-dns.available" ]} ∪ flags s0
                        else flags s0) ->
            ("kube-dns.available" ∈ flags s'
             <-> "kube-dns.available" ∈ flags s
                 \/ exit_status e "systemctl start kube-dns" = 0%Z)
            /\ (exit_status e "systemctl start kube-dns" = 0%Z ->
                launch_dns_eligible (flags s') = false)).
  { intros s0 s' Hs0 Hs'. unfold started in Hs'.
    change (start_command "kube-dns") with "systemctl start kube-dns" in Hs'.
    rewrite Hs', Hs0.
    destruct (exit_status e "systemctl start kube-dns" =? 0)%Z eqn:Hst.
    - apply Z.eqb_eq in Hst. split; [set_solver|]. intros _.
      unfold launch_dns_eligible. apply andb_false_intro2.
      apply bool_decide_eq_false_2. set_solver.
    - apply Z.eqb_neq in Hst. split; [tauto|done]. }
  destruct (decide (exit_status e namespace_check_command = 0%Z))
    as [Hcheck|Hcheck].
  - rewrite (launch_dns_namespace_present _ _ Hprobe Hcheck).
    destruct (dns_addon_ok e
                (after s [dns_status; Run probe_command;
                          Run namespace_check_command])
                cidr a Hsrc Hrep Hin) as (s' & t & -> & Hfl & Htr & Hcmd).
    exists s', ([dns_status; Run probe_command;
                 Run namespace_check_command] ++ t).
    split; [done|]. split.
    { rewrite Htr. cbn [trace after]. by rewrite <- List.app_assoc. }
    split.
    { rewrite commands_app, Hcmd. apply Z.eqb_eq in Hcheck.
      by rewrite Hcheck. }
    by apply (Hflags _ _ eq_refl Hfl).
  - destruct Hns as [Hns|Hcreate]; [done|].
    rewrite (launch_dns_namespace_absent _ _ Hprobe Hcheck).
    unfold bind. rewrite check_call_run, Hcreate. cbn [Z.eqb].
    destruct (dns_addon_ok e
                (after (after s [dns_status; Run probe_command;
                                 Run namespace_check_command])
                       [Run namespace_create_command])
                cidr a Hsrc Hrep Hin) as (s' & t & -> & Hfl & Htr & Hcmd).
    exists s', ([dns_status; Run probe_command;
                 Run namespace_check_command;
                 Run namespace_create_command] ++ t).
    split; [done|]. split.
    { rewrite Htr. cbn [trace after]. by rewrite <- !List.app_assoc. }
    split.
    { rewrite commands_app, Hcmd. apply Z.eqb_neq in Hcheck.
      by rewrite Hcheck. }
    by apply (Hflags _ _ eq_refl Hfl).
Qed.

Lemma launch_dns_starts_dns_witness :
  exit_status dns_down_env probe_command = 0%Z
  /\ exit_status dns_down_env namespace_create_command = 0%Z
  /\ dns_source dns_down_env = VStr "10.1.2.0/24"
  /\ reports dns_down_env "amd64"
  /\ "amd64" ∈ supported_architectures
  /\ exists s' t,
       launch_dns dns_down_env fresh = (Ok tt, s')
       /\ trace s' = trace fresh ++ t
       /\ commands t
          = [probe_command; namespace_check_command]
            ++ (if (exit_status dns_down_env namespace_check_command =? 0)%Z
                then [] else [namespace_create_command])
            ++ [dpkg_command; "systemctl start kube-dns"]
       /\ ("kube-dns.available" ∈ flags s'
           <-> "kube-dns.available" ∈ flags fresh
               \/ exit_status dns_down_env "systemctl start kube-dns" = 0%Z)
       /\ (exit_status dns_down_env "systemctl start kube-dns" = 0%Z ->
           launch_dns_eligible (flags s') = false).
Proof.
  assert (Hsrc : dns_source dns_down_env = VStr "10.1.2.0/24")
    by (vm_compute; reflexivity).
  assert (Hrep : reports dns_down_env "amd64")
    by (vm_compute; repeat split; reflexivity).
  assert (Hin : "amd64" ∈ supported_architectures)
    by (apply (bool_decide_unpack _); vm_compute; exact I).
  exact (conj eq_refl (conj eq_refl (conj Hsrc (conj Hrep (conj Hin
           (launch_dns_starts_dns dns_down_env fresh "10.1.2.0/24" "amd64"
              eq_refl (or_intror eq_refl) Hsrc Hrep Hin)))))).
Defined.

(** X18. When the cluster probe exits with a non-zero status, whatever the
    status and the surroundings, [launch_dns] returns normally having run
    the probe and no other command and having rendered nothing; apart from
    [kubedns.available] every charm state is as before, so a handler that
    was eligible is eligible again. *)
Theorem launch_dns_waits_for_cluster e s :
  exit_status e probe_command <> 0%Z ->
  exists t,
    launch_dns e s
    = (Ok tt,
       State (flags s ∖ {[ "kubedns.available" ]}) (paths s) (trace s ++ t))
    /\ commands t = [probe_command]
    /\ existsb is_render t = false
    /\ launch_dns_eligible (flags s ∖ {[ "kubedns.available" ]})
       = launch_dns_eligible (flags s).
Proof.
  intros Hprobe. eexists. split; [by apply launch_dns_probe_failed|].
  split; [done|]. split; [done|].
  unfold launch_dns_eligible. f_equal; apply bool_decide_ext; set_solver.
Qed.

Lemma launch_dns_waits_for_cluster_witness :
  exit_status probe_down_env probe_command <> 0%Z
  /\ exists t,
       launch_dns probe_down_env fresh
       = (Ok tt,
          State (flags fresh ∖ {[ "kubedns.available" ]}) (paths fresh)
                (trace fresh ++ t))
       /\ commands t = [probe_command]
       /\ existsb is_render t = false
       /\ launch_dns_eligible (flags fresh ∖ {[ "kubedns.available" ]})
          = launch_dns_eligible (flags fresh).
Proof.
  assert (H : exit_status probe_down_env probe_command <> 0%Z)
    by (vm_compute; discriminate).
  exact (conj H (launch_dns_waits_for_cluster probe_down_env fresh H)).
Defined.

(** X19. An unsupported architecture stops [launch_dns] as well: when the
    probe succeeds and the namespace is there or can be created, the handler
    raises the exception of [arch] with the unit status set to blocked; it
    has rendered nothing, has not started kube-dns and has changed no charm
    state. *)
Theorem launch_dns_blocked e s cidr a :
  exit_status e probe_command = 0%Z ->
  exit_status e namespace_check_command = 0%Z
  \/ exit_status e namespace_create_command = 0%Z ->
  dns_source e = VStr cidr -> reports e a -> a ∉ supported_architectures ->
  exists s' t,
    launch_dns e s = (Raise (Exception (unsupported_message a)), s')
    /\ flags s' = flags s
    /\ trace s' = trace s ++ t
    /\ existsb is_render t = false
    /\ ("systemctl start kube-dns" ∉ commands t)
    /\ StatusSet "blocked" (unsupported_message a) ∈ t.
Proof.
  intros Hprobe Hns Hsrc Hrep Hout.
  assert (Haddon : forall s0, exists t,
            dns_addon e s0
            = (Raise (Exception (unsupported_message a)),
               State (flags s0)
                     ({[kube_directory e; manifest_directory e]} ∪ paths s0)
                     (trace s0 ++ t))
            /\ existsb is_render t = false
            /\ ("systemctl start kube-dns" ∉ commands t)
            /\ StatusSet "blocked" (unsupported_message a) ∈ t).
  { intros s0. unfold dns_addon.
    rewrite (bind_raise _ _ _ _ _
               (render_files_blocked _ None _ _ _ Hsrc Hrep Hout)).
    exists (ensure_events (kube_directory e) (paths s0)
            ++ ensure_events (manifest_directory e) (paths s0)
            ++ [Run dpkg_command;
                StatusSet "blocked" (unsupported_message a)]).
    split; [|split; [|split]].
    - unfold after, prepared, credential_events. cbn [flags paths trace descriptor].
      by rewrite <- !List.app_assoc.
    - unfold ensure_events. by repeat case_bool_decide.
    - rewrite !commands_app, !commands_ensure_events. set_solver.
    - set_solver. }
  destruct (decide (exit_status e namespace_check_command = 0%Z))
    as [Hcheck|Hcheck].
  - rewrite (launch_dns_namespace_present _ _ Hprobe Hcheck).
    destruct (Haddon (after s [dns_status; Run probe_command;
                               Run namespace_check_command]))
      as (t & -> & Hren & Hcmd & Hst).
    eexists _, ([dns_status; Run probe_command;
                 Run namespace_check_command] ++ t).
    split; [reflexivity|]. cbn [flags trace after].
    split; [done|]. split; [by rewrite <- List.app_assoc|].
    split; [by rewrite existsb_app, Hren|].
    split; [rewrite commands_app; set_solver|set_solver].
  - destruct Hns as [Hns|Hcreate]; [done|].
    rewrite (launch_dns_namespace_absent _ _ Hprobe Hcheck).
    unfold bind. rewrite check_call_run, Hcreate. cbn [Z.eqb].
    destruct (Haddon (after (after s [dns_status; Run probe_command;
                                      Run namespace_check_command])
                            [Run namespace_create_command]))
      as (t & -> & Hren & Hcmd & Hst).
    eexists _, ([dns_status; Run probe_command;
                 Run namespace_check_command;
                 Run namespace_create_command] ++ t).
    split; [reflexivity|]. cbn [flags trace after].
    split; [done|]. split; [by rewrite <- !List.app_assoc|].
    split; [by rewrite existsb_app, Hren|].
    split; [rewrite commands_app; set_solver|set_solver].
Qed.

Lemma launch_dns_blocked_witness :
  exit_status mips_env probe_command = 0%Z
  /\ exit_status mips_env namespace_check_command = 0%Z
  /\ dns_source mips_env = VStr "10.1.2.0/24"
  /\ reports mips_env "mips"
  /\ ("mips" ∉ supported_architectures)
  /\ exists s' t,
       launch_dns mips_env fresh
       = (Raise (Exception (unsupported_message "mips")), s')
       /\ flags s' = flags fresh
       /\ trace s' = trace fresh ++ t
       /\ existsb is_render t = false
       /\ ("systemctl start kube-dns" ∉ commands t)
       /\ StatusSet "blocked" (unsupported_message "mips") ∈ t.
Proof.
  assert (Hsrc : dns_source mips_env = VStr "10.1.2.0/24")
    by (vm_compute; reflexivity).
  assert (Hrep : reports mips_env "mips")
    by (vm_compute; repeat split; reflexivity).
  assert (Hout : "mips" ∉ supported_architectures)
    by (apply (bool_decide_unpack _); vm_compute; exact I).
  exact (conj eq_refl (conj eq_refl (conj Hsrc (conj Hrep (conj Hout
           (launch_dns_blocked mips_env fresh "10.1.2.0/24" "mips"
              eq_refl (or_introl eq_refl) Hsrc Hrep Hout)))))).
Defined.

(** ** install, every outcome *)

Lemma call_same_flags e cmd : respects same_flags (call e cmd).
Proof. unfold call. effects. Qed.

Lemma call_same_paths e cmd : respects same_paths (call e cmd).
Proof. unfold call. pose proof emit_same_paths. effects. Qed.

(** X20. However [install] ends, it has set and removed no charm state
    and created no path: in particular it never sets
    [kube_master_components.installed], so a handler that was eligible is
    eligible again on the next dispatch. *)
Theorem install_flag_footprint e s :
  flags (snd (install e s)) = flags s
  /\ paths (snd (install e s)) = paths s
  /\ install_eligible (flags (snd (install e s))) = install_eligible (flags s).
Proof.
  assert (Hfl : respects same_flags (install e)).
  { pose proof (call_same_flags e).
    unfold install, install_binary. effects. }
  assert (Hps : respects same_paths (install e)).
  { pose proof (call_same_paths e).
    unfold install, install_binary. effects. }
  specialize (Hfl s). specialize (Hps s).
  unfold same_flags in Hfl. unfold same_paths in Hps.
  by rewrite Hfl, Hps.
Qed.

(** ** render_files, when it returns *)

(** The conditions under which the context is built are the only ones
    under which [render_files] returns. *)
Lemma render_files_returns_only_if e reldata s :
  fst (render_files e reldata s) = Ok tt ->
  exists cidr a,
    dns_source e = VStr cidr /\ reports e a /\ a ∈ supported_architectures.
Proof.
  intros Hok.
  destruct (dns_source e) as [| | |cidr|] eqn:Hsrc.
  4:{ exists cidr, (detected e). split; [done|].
      rewrite (render_files_run _ _ _ _ Hsrc) in Hok.
      destruct (decide (exit_status e dpkg_command = 0%Z)) as [Hexit|Hexit].
      2:{ by rewrite (bind_raise _ _ _ _ _
                        (bind_raise _ _ _ _ _
                           (arch_command_failed _ _ Hexit))) in Hok. }
      destruct (Py.utf8_valid (detected e)) eqn:Hutf.
      2:{ by rewrite (bind_raise _ _ _ _ _
                        (bind_raise _ _ _ _ _
                           (arch_undecodable _ _ Hexit Hutf))) in Hok. }
      destruct (decide (detected e ∈ supported_architectures)) as [Hin|Hout].
      2:{ by rewrite (bind_raise _ _ _ _ _
                        (bind_raise _ _ _ _ _
                           (arch_unsupported _ _ Hexit Hutf Hout))) in Hok. }
      by repeat split. }
  all: by rewrite render_files_without_source in Hok
         by (intros ?; by rewrite Hsrc).
Qed.

(** C8, as the claim states it, fails.  Not every invocation ensures the
    directories and renders the four services: on a unit with neither a
    subnet fact nor a [cidr] option [render_files] raises before it has
    ensured a directory, and on a unit of an unsupported architecture it
    raises with both directories created and nothing rendered.  Nor are the
    directories ensured first: with a truthy descriptor the credentials are
    saved before the first directory is created. *)
Lemma render_files_not_every_invocation :
  render_files no_cidr_env None fresh = (Raise AttributeError, fresh)
  /\ fst (render_files mips_env None fresh)
     = Raise (Exception "Unsupported machine architecture: mips")
  /\ existsb is_render (trace (snd (render_files mips_env None fresh)))
     = false
  /\ firstn 3 (trace (snd (render_files sample_env (Some sample_etcd) fresh)))
     = [SaveClientCredentials "/etc/ssl/etcd/client-key.pem"
                              "/etc/ssl/etcd/client-cert.pem"
                              "/etc/ssl/etcd/client-ca.pem";
        MakeDirs "/var/lib/juju/charm/files/kubernetes";
        MakeDirs "/var/lib/juju/charm/files/manifests"].
Proof. repeat split; vm_compute; reflexivity. Qed.
